(** * services/errorHandler.ts: the API error classifier

    A shallow embedding of [handleApiError] and of the ECMAScript built-ins
    it calls, followed by the properties of the classifier.

    Data model.
    - A JavaScript string is a sequence of code units; [string] holds the
      code units U+0000..U+00FF, one [ascii] per unit, so [String.length]
      is the [length] property.
    - [errorCode : string | undefined] is [option string].
    - The caught value ([unknown]) is described by what the classifier
      observes of it, see [RawError].
    - Side effects (console, webhook, event bus) are recorded in order in a
      trace; exceptions are an explicit outcome, see [Js].

    Outside the model: code units above U+00FF in the message, the limits
    of the engine (stack depth, memory), and a caught [Error] whose
    message is not a string and yet answers [toLowerCase()]. *)

From Stdlib Require Import String Ascii List ZArith NArith Bool Lia DecimalString.
Import ListNotations.
Local Open Scope string_scope.

(* ------------------------------------------------------------------ *)
(** ** Strings *)

Module JsString.

(** The characters that cannot be typed inside a literal. *)
Definition dquote : string := String (ascii_of_nat 34) EmptyString.
Definition newline : string := String (ascii_of_nat 10) EmptyString.

(** [quoted s] is [s] between double quotes, as in a JSON text. *)
Definition quoted (s : string) : string := dquote ++ s ++ dquote.

Definition inRange (lo hi n : N) : bool := ((lo <=? n) && (n <=? hi))%N.

(** [String.prototype.toLowerCase] on one code unit below U+0100: the
    upper-case letters are A-Z and U+00C0..U+00DE without the
    multiplication sign U+00D7; each maps to the unit 32 above it. *)
Definition lowerUnit (c : ascii) : ascii :=
  let n := N_of_ascii c in
  if inRange 65 90 n || (inRange 192 222 n && negb (n =? 215)%N)
  then ascii_of_N (n + 32)
  else c.

Fixpoint toLowerCase (s : string) : string :=
  match s with
  | EmptyString => EmptyString
  | String c rest => String (lowerUnit c) (toLowerCase rest)
  end.

(** [hay.includes(needle)] *)
Fixpoint includes (hay needle : string) : bool :=
  String.prefix needle hay ||
  match hay with
  | EmptyString => false
  | String _ rest => includes rest needle
  end.

(** [s.split('\n')[0]]: the segment before the first line feed. *)
Fixpoint firstSegment (s : string) : string :=
  match s with
  | EmptyString => EmptyString
  | String c rest =>
      if Ascii.eqb c (ascii_of_nat 10) then EmptyString
      else String c (firstSegment rest)
  end.

(** Truthiness of a string: only the empty string is falsy. *)
Definition truthy (s : string) : bool :=
  match s with EmptyString => false | String _ _ => true end.

(** [\d] and [\w] of a regular expression without the [u] and [i] flags. *)
Definition isDigit (c : ascii) : bool := inRange 48 57 (N_of_ascii c).

Definition isWordChar (c : ascii) : bool :=
  let n := N_of_ascii c in
  inRange 48 57 n || inRange 65 90 n || inRange 97 122 n || (n =? 95)%N.

End JsString.
Import JsString.

(* ------------------------------------------------------------------ *)
(** ** The two regular expressions of the classifier *)

Module Regex.

(** The longest prefix of [s] that ends with a closing brace: what the
    greedy [.*\}] consumes ([.] matches line terminators under the [s]
    flag). *)
Fixpoint upToLastBrace (s : string) : option string :=
  match s with
  | EmptyString => None
  | String c rest =>
      match upToLastBrace rest with
      | Some body => Some (String c body)
      | None => if Ascii.eqb c "}" then Some (String c EmptyString) else None
      end
  end.

(** [message.match(/(\{.*\})/s)], component [0] of the result, or [None]
    for [null]. Start positions are tried from the left. *)
Fixpoint matchJsonSpan (s : string) : option string :=
  match s with
  | EmptyString => None
  | String c rest =>
      if Ascii.eqb c "{" then
        match upToLastBrace rest with
        | Some body => Some (String c body)
        | None => matchJsonSpan rest
        end
      else matchJsonSpan rest
  end.

(** [\[(\d{3})\]] at the head of [s]: capture group 1. *)
Definition bracketedCode (s : string) : option string :=
  match s with
  | String o (String d1 (String d2 (String d3 (String c _)))) =>
      if Ascii.eqb o "[" && isDigit d1 && isDigit d2 && isDigit d3
         && Ascii.eqb c "]"
      then Some (String d1 (String d2 (String d3 EmptyString)))
      else None
  | _ => None
  end.

(** [\b(\d{3})\b] at the head of [s]: capture group 2. [prevWord] tells
    whether the code unit before the head is a word character. *)
Definition standaloneCode (prevWord : bool) (s : string) : option string :=
  match s with
  | String d1 (String d2 (String d3 rest)) =>
      if negb prevWord && isDigit d1 && isDigit d2 && isDigit d3
         && match rest with
            | EmptyString => true
            | String c _ => negb (isWordChar c)
            end
      then Some (String d1 (String d2 (String d3 EmptyString)))
      else None
  | _ => None
  end.

(** [codeMatch[1] || codeMatch[2]] for
    [message.match(/\[(\d{3})\]|\b(\d{3})\b/)]: the leftmost position at
    which an alternative matches, the bracketed one tried first. *)
Fixpoint matchCodeFrom (prevWord : bool) (s : string) : option string :=
  match bracketedCode s with
  | Some code => Some code
  | None =>
      match standaloneCode prevWord s with
      | Some code => Some code
      | None =>
          match s with
          | EmptyString => None
          | String c rest => matchCodeFrom (isWordChar c) rest
          end
      end
  end.

Definition matchCode (s : string) : option string := matchCodeFrom false s.

End Regex.
Import Regex.

(* ------------------------------------------------------------------ *)
(** ** Number values and their string form *)

Module JsNumber.
Local Open Scope Z_scope.

(** A Number as [JSON.parse] can produce it: a binary64 value that is
    not NaN. [Finite neg m e] has magnitude [m * 2^e]; the constructor is
    used in normal form only: [m = 0, e = 0] for zero, [2^52 <= m < 2^53]
    for a normal value, [m < 2^52, e = -1074] for a subnormal one. *)
Inductive Number :=
| Finite (negative : bool) (m e : Z)
| Infinite (negative : bool).

(** Whether [p/q >= 2^l], for positive [p] and [q]. *)
Definition geqPow2 (p q l : Z) : bool :=
  if 0 <=? l then q * 2 ^ l <=? p else q <=? p * 2 ^ (- l).

(** The integer part of the binary logarithm of [p/q]. *)
Definition floorLog2 (p q : Z) : Z :=
  let l := Z.log2 p - Z.log2 q in
  if geqPow2 p q l then l else l - 1.

(** Round-to-nearest, ties to even, of [n/d]. *)
Definition roundHalfEven (n d : Z) : Z :=
  let a := n / d in
  match 2 * (n mod d) ?= d with
  | Lt => a
  | Gt => a + 1
  | Eq => if Z.even a then a else a + 1
  end.

(** The binary64 value nearest to the positive rational [p/q], as
    mantissa and exponent in normal form; [None] is overflow. *)
Definition roundMagnitude (p q : Z) : option (Z * Z) :=
  let e := Z.max (floorLog2 p q) (-1022) - 52 in
  let m := if 0 <=? e then roundHalfEven p (q * 2 ^ e)
           else roundHalfEven (p * 2 ^ (- e)) q in
  let '(m, e) := if m =? 2 ^ 53 then (2 ^ 52, e + 1) else (m, e) in
  if m =? 0 then Some (0, 0)
  else if 1023 <? e + 52 then None
  else Some (m, e).

(** The Number denoted by the decimal [m10 * 10^e10] with [0 <= m10].
    Decimals far outside the binary64 range are settled without
    computing the power of ten. *)
Definition ofDecimal (neg : bool) (m10 e10 : Z) : Number :=
  if m10 =? 0 then Finite neg 0 0
  else if 310 <? Z.log2 m10 / 4 + e10 then Infinite neg
  else if Z.log2 m10 / 3 + 1 + e10 <? -330 then Finite neg 0 0
  else
    match (if 0 <=? e10 then roundMagnitude (m10 * 10 ^ e10) 1
           else roundMagnitude m10 (10 ^ (- e10))) with
    | Some (m, e) => Finite neg m e
    | None => Infinite neg
    end.

(** Truthiness: [+0] and [-0] are the falsy Numbers. *)
Definition truthy (x : Number) : bool :=
  match x with
  | Finite _ m _ => negb (m =? 0)
  | Infinite _ => true
  end.

(** Exactly [k] decimal digits of [s], most significant first. *)
Fixpoint digits (k : nat) (s : Z) : string :=
  match k with
  | O => EmptyString
  | S k' =>
      digits k' (s / 10) ++
      String (ascii_of_N (48 + Z.to_N (s mod 10))) EmptyString
  end.

Definition decimal (n : Z) : string :=
  NilZero.string_of_uint (N.to_uint (Z.to_N n)).

Fixpoint zeros (k : nat) : string :=
  match k with
  | O => EmptyString
  | S k' => String "0" (zeros k')
  end.

(** Whether [p/q < 10^n]. *)
Definition ltPow10 (p q n : Z) : bool :=
  if 0 <=? n then p <? q * 10 ^ n else p * 10 ^ (- n) <? q.

(** The [n] with [10^(n-1) <= p/q < 10^n]: the first exponent, from a
    lower estimate on, whose power of ten exceeds [p/q]. *)
Definition decimalExponent (p q : Z) : Z :=
  let est := (Z.log2 p - Z.log2 q - 1) * 30103 / 100000 - 1 in
  if ltPow10 p q est then est
  else if ltPow10 p q (est + 1) then est + 1
  else if ltPow10 p q (est + 2) then est + 2
  else if ltPow10 p q (est + 3) then est + 3
  else est + 4.

(** Whether the decimal [s * 10^x] rounds to the value [m * 2^e]. *)
Definition roundsTo (m e s x : Z) : bool :=
  match (if 0 <=? x then roundMagnitude (s * 10 ^ x) 1
         else roundMagnitude s (10 ^ (- x))) with
  | Some (m', e') => (m' =? m) && (e' =? e)
  | None => false
  end.

(** [|s * 10^x - p/q|], scaled by the positive [q * 10^(-x)] (or [q]). *)
Definition distance (p q s x : Z) : Z :=
  if 0 <=? x then Z.abs (s * 10 ^ x * q - p)
  else Z.abs (s * q - p * 10 ^ (- x)).

(** The digits [s] and exponent [n] of Number::toString for the
    positive value [m * 2^e = p/q]: the least [k] for which a [k]-digit
    [s] exists with [s * 10^(n-k)] rounding to the value, and the [s]
    nearest to the value. [fuel] counts the lengths left to try, up to
    the 17 digits that always suffice. *)
Fixpoint shortest (fuel : nat) (k : Z) (m e p q n0 : Z)
  : Z * Z * Z :=
  let x := n0 - k in
  let lo := if 0 <=? x then p / (q * 10 ^ x) else p * 10 ^ (- x) / q in
  let hi := lo + 1 in
  let okLo := roundsTo m e lo x in
  let okHi := roundsTo m e hi x in
  let norm s := if s =? 10 ^ k then (k, 10 ^ (k - 1), n0 + 1) else (k, s, n0) in
  match fuel with
  | O => norm lo
  | S fuel' =>
      if okLo && okHi then
        if distance p q hi x <? distance p q lo x then norm hi else norm lo
      else if okLo then norm lo
      else if okHi then norm hi
      else shortest fuel' (k + 1) m e p q n0
  end.

(** Number::toString(x), radix 10. *)
Definition toString (x : Number) : string :=
  match x with
  | Infinite neg => (if neg then "-" else EmptyString) ++ "Infinity"
  | Finite neg m e =>
      if m =? 0 then "0"
      else
        let p := if 0 <=? e then m * 2 ^ e else m in
        let q := if 0 <=? e then 1 else 2 ^ (- e) in
        let '(k, s, n) := shortest 17 1 m e p q (decimalExponent p q) in
        let ds := digits (Z.to_nat k) s in
        (if neg then "-" else EmptyString) ++
        (if (k <=? n) && (n <=? 21) then
           ds ++ zeros (Z.to_nat (n - k))
         else if (0 <? n) && (n <=? 21) then
           substring 0 (Z.to_nat n) ds ++ "." ++
           substring (Z.to_nat n) (Z.to_nat (k - n)) ds
         else if (-6 <? n) && (n <=? 0) then
           "0." ++ zeros (Z.to_nat (- n)) ++ ds
         else
           let ex := (if 0 <=? n - 1 then "+" else "-") ++
                     decimal (Z.abs (n - 1)) in
           if k =? 1 then ds ++ "e" ++ ex
           else substring 0 1 ds ++ "." ++
                substring 1 (Z.to_nat (k - 1)) ds ++ "e" ++ ex)
  end.

End JsNumber.

(* ------------------------------------------------------------------ *)
(** ** JSON values and [JSON.parse] *)

Module Json.

#[local] Set Warnings "-register-all".

Inductive Value :=
| JNull
| JBool (b : bool)
| JNumber (x : JsNumber.Number)
| JString (s : string)
| JArray (elements : list Value)
| JObject (members : list (string * Value)).

Inductive Token :=
| TLBrace | TRBrace | TLBracket | TRBracket | TColon | TComma
| TString (s : string)
| TNumber (x : JsNumber.Number)
| TTrue | TFalse | TNull.

(** *** Number literals *)

(** The leading decimal digits of [s] and what follows them. *)
Fixpoint takeDigits (s : string) : string * string :=
  match s with
  | String c rest =>
      if isDigit c then
        let '(ds, tl) := takeDigits rest in (String c ds, tl)
      else (EmptyString, s)
  | EmptyString => (EmptyString, EmptyString)
  end.

Fixpoint digitsValue (acc : Z) (ds : string) : Z :=
  match ds with
  | EmptyString => acc
  | String c rest =>
      digitsValue (10 * acc + Z.of_N (N_of_ascii c) - 48)%Z rest
  end.

(** A leading minus sign (or, with [plus], a plus sign) and the rest. *)
Definition takeSign (plus : bool) (s : string) : bool * string :=
  match s with
  | String c rest =>
      if Ascii.eqb c "-" then (true, rest)
      else if plus && Ascii.eqb c "+" then (false, rest)
      else (false, s)
  | EmptyString => (false, s)
  end.

(** The JSON number grammar applied to the whole of [raw]: an optional
    minus sign; the integer part, one digit or several that do not
    start with a zero; an optional fraction, a point and at least one
    digit; an optional exponent, [e] or [E], an optional sign and at
    least one digit. *)
Definition numberOfLiteral (raw : string) : option JsNumber.Number :=
  let '(neg, s1) := takeSign false raw in
  let '(ints, s2) := takeDigits s1 in
  let intOk :=
    match ints with
    | EmptyString => false
    | String c EmptyString => true
    | String c _ => negb (Ascii.eqb c "0")
    end in
  let '(fracOk, fracs, s3) :=
    match s2 with
    | String c tl =>
        if Ascii.eqb c "." then
          let '(fs, tl') := takeDigits tl in (JsString.truthy fs, fs, tl')
        else (true, EmptyString, s2)
    | EmptyString => (true, EmptyString, s2)
    end in
  let '(expOk, e, s4) :=
    match s3 with
    | String c tl =>
        if Ascii.eqb c "e" || Ascii.eqb c "E" then
          let '(eneg, tl') := takeSign true tl in
          let '(es, tl'') := takeDigits tl' in
          let v := digitsValue 0 es in
          (JsString.truthy es, if eneg then (- v)%Z else v, tl'')
        else (true, 0%Z, s3)
    | EmptyString => (true, 0%Z, s3)
    end in
  if intOk && fracOk && expOk && negb (JsString.truthy s4) then
    Some (JsNumber.ofDecimal neg (digitsValue 0 (ints ++ fracs))
            (e - Z.of_nat (String.length fracs))%Z)
  else None.

(** *** The lexer: a state machine over the code units *)

Inductive LexState :=
| LIdle
| LString (acc : string)
| LEscape (acc : string)
| LUnicode (acc : string) (hex : list N)
| LNumber (raw : string)
| LWord (raw : string).

Definition snoc (s : string) (c : ascii) : string :=
  s ++ String c EmptyString.

Definition isWhitespace (c : ascii) : bool :=
  let n := N_of_ascii c in
  ((n =? 9) || (n =? 10) || (n =? 13) || (n =? 32))%N.

Definition isNumberChar (c : ascii) : bool :=
  isDigit c || Ascii.eqb c "-" || Ascii.eqb c "+" || Ascii.eqb c "."
  || Ascii.eqb c "e" || Ascii.eqb c "E".

Definition isLowerLetter (c : ascii) : bool := inRange 97 122 (N_of_ascii c).

Definition hexValue (c : ascii) : option N :=
  let n := N_of_ascii c in
  if inRange 48 57 n then Some (n - 48)%N
  else if inRange 65 70 n then Some (n - 55)%N
  else if inRange 97 102 n then Some (n - 87)%N
  else None.

(** The code unit of a [\uXXXX] escape. [string] has no unit above
    U+00FF; such a unit is kept as U+00FF. The classifier compares the
    strings of a parsed value with ASCII constants and with the empty
    string only, and neither comparison can tell the two apart. *)
Definition unitOfHex (hex : list N) : ascii :=
  ascii_of_N (N.min 255 (fold_left (fun acc d => 16 * acc + d)%N hex 0%N)).

(** The token, if any, and the state after reading [c] between tokens. *)
Definition startToken (c : ascii) : option (list Token * LexState) :=
  if isWhitespace c then Some ([], LIdle)
  else if Ascii.eqb c "{" then Some ([TLBrace], LIdle)
  else if Ascii.eqb c "}" then Some ([TRBrace], LIdle)
  else if Ascii.eqb c "[" then Some ([TLBracket], LIdle)
  else if Ascii.eqb c "]" then Some ([TRBracket], LIdle)
  else if Ascii.eqb c ":" then Some ([TColon], LIdle)
  else if Ascii.eqb c "," then Some ([TComma], LIdle)
  else if Ascii.eqb c (ascii_of_nat 34) then Some ([], LString EmptyString)
  else if isNumberChar c then Some ([], LNumber (String c EmptyString))
  else if isLowerLetter c then Some ([], LWord (String c EmptyString))
  else None.

Definition wordToken (raw : string) : option Token :=
  if String.eqb raw "true" then Some TTrue
  else if String.eqb raw "false" then Some TFalse
  else if String.eqb raw "null" then Some TNull
  else None.

Definition numberToken (raw : string) : option Token :=
  option_map TNumber (numberOfLiteral raw).

Definition escapeUnit (c : ascii) : option ascii :=
  if Ascii.eqb c (ascii_of_nat 34) then Some c
  else if Ascii.eqb c (ascii_of_nat 92) then Some c
  else if Ascii.eqb c "/" then Some c
  else if Ascii.eqb c "b" then Some (ascii_of_nat 8)
  else if Ascii.eqb c "f" then Some (ascii_of_nat 12)
  else if Ascii.eqb c "n" then Some (ascii_of_nat 10)
  else if Ascii.eqb c "r" then Some (ascii_of_nat 13)
  else if Ascii.eqb c "t" then Some (ascii_of_nat 9)
  else None.

(** A number or a word ends at the first code unit that cannot continue
    it; that unit then starts the next token. A JSON text in which a
    number or a literal name is directly followed by a further such
    unit is not grammatical, so reading the longest run loses nothing. *)
Fixpoint lex (st : LexState) (s : string) : option (list Token) :=
  match s with
  | EmptyString =>
      match st with
      | LIdle => Some []
      | LNumber raw => option_map (fun t => [t]) (numberToken raw)
      | LWord raw => option_map (fun t => [t]) (wordToken raw)
      | LString _ | LEscape _ | LUnicode _ _ => None
      end
  | String c rest =>
      let resume (done : option Token) :=
        match done, startToken c with
        | Some t, Some (ts, st') =>
            option_map (fun r => t :: ts ++ r)%list (lex st' rest)
        | _, _ => None
        end in
      match st with
      | LIdle =>
          match startToken c with
          | Some (ts, st') => option_map (app ts) (lex st' rest)
          | None => None
          end
      | LString acc =>
          if Ascii.eqb c (ascii_of_nat 34) then
            option_map (cons (TString acc)) (lex LIdle rest)
          else if Ascii.eqb c (ascii_of_nat 92) then lex (LEscape acc) rest
          else if (N_of_ascii c <? 32)%N then None
          else lex (LString (snoc acc c)) rest
      | LEscape acc =>
          if Ascii.eqb c "u" then lex (LUnicode acc []) rest
          else
            match escapeUnit c with
            | Some u => lex (LString (snoc acc u)) rest
            | None => None
            end
      | LUnicode acc hex =>
          match hexValue c with
          | Some d =>
              let hex' := (hex ++ [d])%list in
              if Nat.eqb (List.length hex') 4
              then lex (LString (snoc acc (unitOfHex hex'))) rest
              else lex (LUnicode acc hex') rest
          | None => None
          end
      | LNumber raw =>
          if isNumberChar c then lex (LNumber (snoc raw c)) rest
          else resume (numberToken raw)
      | LWord raw =>
          if isLowerLetter c then lex (LWord (snoc raw c)) rest
          else resume (wordToken raw)
      end
  end.

(** *** The parser: a stack machine over the tokens *)

(** The containers that are open, innermost first. *)
Inductive Frame :=
| FArray (done : list Value)
| FObject (done : list (string * Value))
| FMember (done : list (string * Value)) (key : string).

(** What the grammar allows next. *)
Inductive Mode :=
| MValue          (* a value *)
| MFirstElement   (* a value or the end of the array *)
| MFirstKey       (* a key or the end of the object *)
| MKey            (* a key *)
| MColon          (* the colon after a key *)
| MNext           (* a comma or the end of the container *)
| MDone (v : Value).

(** A value is complete: it is the result, or goes into the innermost
    open container. [done] lists are kept newest first. *)
Definition complete (v : Value) (stack : list Frame)
  : option (Mode * list Frame) :=
  match stack with
  | [] => Some (MDone v, [])
  | FArray done :: up => Some (MNext, FArray (v :: done) :: up)
  | FMember done key :: up => Some (MNext, FObject ((key, v) :: done) :: up)
  | FObject _ :: _ => None
  end.

Definition startValue (t : Token) (stack : list Frame)
  : option (Mode * list Frame) :=
  match t with
  | TLBrace => Some (MFirstKey, FObject [] :: stack)
  | TLBracket => Some (MFirstElement, FArray [] :: stack)
  | TString s => complete (JString s) stack
  | TNumber x => complete (JNumber x) stack
  | TTrue => complete (JBool true) stack
  | TFalse => complete (JBool false) stack
  | TNull => complete JNull stack
  | TRBrace | TRBracket | TColon | TComma => None
  end.

Definition startKey (t : Token) (stack : list Frame)
  : option (Mode * list Frame) :=
  match t, stack with
  | TString key, FObject done :: up => Some (MColon, FMember done key :: up)
  | _, _ => None
  end.

Definition closeArray (stack : list Frame) : option (Mode * list Frame) :=
  match stack with
  | FArray done :: up => complete (JArray (rev done)) up
  | _ => None
  end.

Definition closeObject (stack : list Frame) : option (Mode * list Frame) :=
  match stack with
  | FObject done :: up => complete (JObject (rev done)) up
  | _ => None
  end.

Definition step (mode : Mode) (stack : list Frame) (t : Token)
  : option (Mode * list Frame) :=
  match mode, t with
  | MValue, _ => startValue t stack
  | MFirstElement, TRBracket => closeArray stack
  | MFirstElement, _ => startValue t stack
  | MFirstKey, TRBrace => closeObject stack
  | MFirstKey, _ => startKey t stack
  | MKey, _ => startKey t stack
  | MColon, TColon => Some (MValue, stack)
  | MNext, TComma =>
      match stack with
      | FArray _ :: _ => Some (MValue, stack)
      | FObject _ :: _ => Some (MKey, stack)
      | _ => None
      end
  | MNext, TRBracket => closeArray stack
  | MNext, TRBrace => closeObject stack
  | _, _ => None
  end.

Fixpoint run (mode : Mode) (stack : list Frame) (ts : list Token)
  : option Value :=
  match ts with
  | [] => match mode with MDone v => Some v | _ => None end
  | t :: rest =>
      match step mode stack t with
      | Some (mode', stack') => run mode' stack' rest
      | None => None
      end
  end.

(** [JSON.parse(text)]; [None] stands for the SyntaxError. *)
Definition parse (text : string) : option Value :=
  match lex LIdle text with
  | Some ts => run MValue [] ts
  | None => None
  end.

(** *** Reading a parsed value *)

(** The value of the last member named [key], as [JSON.parse] keeps the
    last of several members with one name. *)
Fixpoint lastMember (key : string) (members : list (string * Value))
  : option Value :=
  match members with
  | [] => None
  | (k, v) :: rest =>
      match lastMember key rest with
      | Some later => Some later
      | None => if String.eqb k key then Some v else None
      end
  end.

(** [base?.key] for a [key] that no built-in prototype defines, as
    "error" and "code"; [None] is [undefined]. Only an object gives a
    value: [undefined] and [null] end the chain, and a boolean, number,
    string or array has no such property. *)
Definition optionalMember (base : option Value) (key : string)
  : option Value :=
  match base with
  | Some (JObject members) => lastMember key members
  | _ => None
  end.

(** Truthiness of a value or [undefined]. *)
Definition truthy (v : option Value) : bool :=
  match v with
  | None | Some JNull => false
  | Some (JBool b) => b
  | Some (JNumber x) => JsNumber.truthy x
  | Some (JString s) => JsString.truthy s
  | Some (JArray _) | Some (JObject _) => true
  end.

Fixpoint join (sep : string) (parts : list string) : string :=
  match parts with
  | [] => EmptyString
  | [p] => p
  | p :: rest => p ++ sep ++ join sep rest
  end.

(** Whether an object has a member of its own named [key]. *)
Definition hasOwn (key : string) (members : list (string * Value)) : bool :=
  existsb (fun m => String.eqb (fst m) key) members.

(** All the values, or [None] if one is missing. *)
Fixpoint allSome {A} (l : list (option A)) : option (list A) :=
  match l with
  | [] => Some []
  | None :: _ => None
  | Some a :: rest => option_map (cons a) (allSome rest)
  end.

(** [String(v)]; [None] stands for the TypeError of a value that has no
    primitive form. An array is joined with commas, its elements
    converted in turn and [null] elements giving the empty string. A
    plain object has the default rendering, unless it has a member of its
    own named "toString": a parsed member is never callable, the inherited
    [valueOf] returns the object itself, and the conversion throws. *)
Fixpoint toString (v : Value) : option string :=
  match v with
  | JNull => Some "null"
  | JBool true => Some "true"
  | JBool false => Some "false"
  | JNumber x => Some (JsNumber.toString x)
  | JString s => Some s
  | JArray elements =>
      option_map (join ",")
        (allSome (map (fun el => match el with
                                 | JNull => Some EmptyString
                                 | _ => toString el
                                 end) elements))
  | JObject members =>
      if hasOwn "toString" members then None else Some "[object Object]"
  end.

End Json.

(* ------------------------------------------------------------------ *)
(** ** Effects and exceptions *)

(** An exception value. *)
Inductive Exception :=
| TypeError
| SyntaxError
| RangeError
| OtherException (description : string).

Inductive Outcome (A : Type) :=
| Returned (a : A)
| Thrown (e : Exception).
Arguments Returned {A} a.
Arguments Thrown {A} e.

(** The caught value, of type [unknown], by what lines 17-23 observe of
    it; nothing else of the value is read.
    - [ErrorInstance message]: [error instanceof Error] holds and
      [error.message] is the string [message] (a String object behaves as
      its string in every use the classifier makes of it).
    - [ErrorNonString thrown]: [error instanceof Error] holds and
      [error.message] is not a string, so that [message.toLowerCase()] at
      line 23 throws [thrown]: a TypeError for [undefined], [null], a
      number, a boolean or an object without that method, and whatever a
      getter of [message] or a method of its own throws otherwise.
    - [OtherValue conversion]: any other value; [conversion] is what
      [String(error)] at line 20 does, returning a string or throwing: a
      TypeError for an object without a usable [toString] or [valueOf]
      ([Object.create(null)]), and whatever the value's own [toString]
      or [valueOf] throws otherwise. A thrown string [s] is
      [OtherValue (Returned s)], [undefined] is
      [OtherValue (Returned "undefined")].
    A message that is not a string and yet answers [toLowerCase()]
    without throwing is outside the model. *)
Inductive RawError :=
| ErrorInstance (message : string)
| ErrorNonString (thrown : Exception)
| OtherValue (conversion : Outcome string).

(** What a call does to the world outside, in the order it happens. *)
Inductive Effect :=
| ConsoleError (label : string) (payload : RawError)
| WebhookCall (payload : RawError)
| Dispatch (signal : string).

(** A computation: the effects it performed, then how it ended. *)
Definition Js (A : Type) : Type := list Effect * Outcome A.

Definition ret {A} (a : A) : Js A := ([], Returned a).

Definition throw {A} (e : Exception) : Js A := ([], Thrown e).

Definition emit (ev : Effect) : Js unit := ([ev], Returned tt).

Definition bind {A B} (m : Js A) (k : A -> Js B) : Js B :=
  match m with
  | (t, Returned a) => let '(t', r) := k a in ((t ++ t')%list, r)
  | (t, Thrown e) => (t, Thrown e)
  end.

(** [try { body } catch (e) { handler }] *)
Definition tryCatch {A} (body : Js A) (handler : Exception -> Js A) : Js A :=
  match body with
  | (t, Thrown e) => let '(t', r) := handler e in ((t ++ t')%list, r)
  | (t, Returned a) => (t, Returned a)
  end.

Declare Scope js_scope.
Delimit Scope js_scope with js.
Notation "x <- m ;; k" := (bind m (fun x => k))
  (at level 61, m at next level, right associativity) : js_scope.
Notation "m ;; k" := (bind m (fun _ => k))
  (at level 61, right associativity) : js_scope.
Local Open Scope js_scope.

Definition trace {A} (m : Js A) : list Effect := fst m.
Definition outcome {A} (m : Js A) : Outcome A := snd m.

(** The payloads the notification sink received, and the signals the
    event bus published, in order. *)
Definition webhookCalls (t : list Effect) : list RawError :=
  flat_map (fun ev => match ev with WebhookCall p => [p] | _ => [] end) t.

Definition dispatched (t : list Effect) : list string :=
  flat_map (fun ev => match ev with Dispatch s => [s] | _ => [] end) t.

(* ------------------------------------------------------------------ *)
(** ** Built-ins and collaborators *)

Definition console_error (label : string) (payload : RawError) : Js unit :=
  emit (ConsoleError label payload).

(** Modelled from the spec: [triggerErrorWebhook] of
    services/webhookService, the notification sink. It is a one-way
    operation taking the raw error value; no return value is consulted and
    failures in this path are not propagated back. *)
Definition triggerErrorWebhook (error : RawError) : Js unit :=
  emit (WebhookCall error).

(** Modelled from the spec: [eventBus.dispatch] of services/eventBus, a
    publish-only, fire-and-forget operation taking a signal name and no
    payload beyond the name. *)
Definition eventBus_dispatch (signal : string) : Js unit :=
  emit (Dispatch signal).

Definition JSON_parse (text : string) : Js Json.Value :=
  match Json.parse text with
  | Some v => ret v
  | None => throw SyntaxError
  end.

(** [String(v)] for a value read from a parsed JSON value. *)
Definition String_ (v : option Json.Value) : Js string :=
  match v with
  | Some v =>
      match Json.toString v with
      | Some s => ret s
      | None => throw TypeError
      end
  | None => ret "undefined"
  end.

(** [String(error)] for a caught value that is not an [Error]. *)
Definition String_of_unknown (conversion : Outcome string) : Js string :=
  match conversion with
  | Returned s => ret s
  | Thrown e => throw e
  end.

(** [!errorCode] *)
Definition falsy (errorCode : option string) : bool :=
  match errorCode with
  | Some s => negb (JsString.truthy s)
  | None => true
  end.

(** [errorCode === literal] *)
Definition strictEq (errorCode : option string) (literal : string) : bool :=
  match errorCode with
  | Some s => String.eqb s literal
  | None => false
  end.

(* ------------------------------------------------------------------ *)
(** ** The classifier *)

(** [String(error)] or [error.message]: lines 16-21 of the source, and
    of line 23 the fact that the message can be lower-cased. A message
    that is not a string is assigned at line 18 and makes line 23 throw;
    nothing happens between the two lines, so the exception is raised
    here. *)
Definition normalizeMessage (error : RawError) : Js string :=
  match error with
  | ErrorInstance message => ret message
  | ErrorNonString thrown => throw thrown
  | OtherValue conversion => String_of_unknown conversion
  end.

(** Step 1 of the detection (lines 30-34): the specific keywords. *)
Definition priorityKeywords (lowerCaseMessage : string) : option string :=
  if includes lowerCaseMessage "resource exhausted"
     || includes lowerCaseMessage "quota exceeded"
  then Some "429"
  else if includes lowerCaseMessage "bad request"
          && (includes lowerCaseMessage "safety"
              || includes lowerCaseMessage "filter")
  then Some "400"
  else None.

(** The body of the [try] block (lines 40-46); [errorCode] is the value of
    the variable on entry, which the block leaves or replaces. The block
    can throw at two places: [JSON.parse] and [String]. *)
Definition jsonErrorCode (message : string) (errorCode : option string)
  : Js (option string) :=
  match matchJsonSpan message with
  | Some jsonMatch0 =>
      if JsString.truthy jsonMatch0 then
        errorObj <- JSON_parse jsonMatch0 ;;
        let code :=
          Json.optionalMember
            (Json.optionalMember (Some errorObj) "error") "code" in
        if Json.truthy code then
          errorCode <- String_ code ;;
          ret (Some errorCode)
        else ret errorCode
      else ret errorCode
  | None => ret errorCode
  end.

(** Lines 50-55: a numeric code in the message. *)
Definition numericCode (message : string) (errorCode : option string)
  : option string :=
  if falsy errorCode then
    match matchCode message with
    | Some code => Some code
    | None => errorCode
    end
  else errorCode.

(** Lines 58-68: the general keywords. *)
Definition keywordFallback (lowerCaseMessage : string)
  (errorCode : option string) : option string :=
  if falsy errorCode then
    if includes lowerCaseMessage "permission denied"
       || includes lowerCaseMessage "api key not valid"
    then Some "403"
    else if includes lowerCaseMessage "bad request" then Some "400"
    else if includes lowerCaseMessage "server error"
            || includes lowerCaseMessage "503"
    then Some "500"
    else if includes lowerCaseMessage "failed to fetch" then Some "NET"
    else errorCode
  else errorCode.

(** Lines 24-70 of the source: the detection of the error code. *)
Definition detectErrorCode (message lowerCaseMessage : string)
  : Js (option string) :=
  let errorCode := priorityKeywords lowerCaseMessage in
  if falsy errorCode then
    errorCode <-
      tryCatch (jsonErrorCode message errorCode)
               (fun _ => ret errorCode) ;;
    let errorCode := numericCode message errorCode in
    let errorCode := keywordFallback lowerCaseMessage errorCode in
    ret errorCode
  else ret errorCode.

Definition veoMessage : string :=
  "VEO authorization failed. Please try again or check your API key.".
Definition apiKeyMessage : string :=
  "API Key is invalid or expired. Please try again or check your API key.".
Definition safetyMessage : string :=
  "Request blocked by safety filters. Please try a different prompt or image.".
Definition capacityMessage : string :=
  "Server Penuh. Sila tunggu sebentar sebelum mencuba lagi.".
Definition unavailableMessage : string :=
  "Google API is temporarily unavailable. Please try again in a few moments.".
Definition networkMessage : string :=
  "Network error. Please check your internet connection.".
Definition unexpectedMessage : string :=
  "An unexpected error occurred. Please try again. If the problem persists, check the AI API Log for details.".

(** The [default] case of the [switch]. *)
Definition defaultMessage (message : string) : string :=
  let firstLine := firstSegment message in
  if (150 <? String.length firstLine)%nat
     || includes firstLine "[GoogleGenerativeAI Error]"
  then unexpectedMessage
  else firstLine.

Definition handleApiError (error : RawError) : Js string :=
  console_error "Original API Error:" error ;;
  triggerErrorWebhook error ;;
  message <- normalizeMessage error ;;
  let lowerCaseMessage := toLowerCase message in
  errorCode <- detectErrorCode message lowerCaseMessage ;;
  let isVeoError := includes lowerCaseMessage "veo auth token" in
  if (strictEq errorCode "403" || strictEq errorCode "401") && isVeoError then
    eventBus_dispatch "initiateAutoVeoKeyClaim" ;;
    ret veoMessage
  else
    let isApiKeyError :=
      (strictEq errorCode "403" || strictEq errorCode "401")
      || (strictEq errorCode "400"
          && includes lowerCaseMessage "api key not valid") in
    if isApiKeyError then
      eventBus_dispatch "initiateAutoApiKeyClaim" ;;
      ret apiKeyMessage
    else if strictEq errorCode "400" then ret safetyMessage
    else if strictEq errorCode "429" then ret capacityMessage
    else if strictEq errorCode "500" || strictEq errorCode "503" then ret unavailableMessage
    else if strictEq errorCode "NET" then ret networkMessage
    else ret (defaultMessage message).

(** The effects of every call before the error is looked at (lines 11
    and 14). *)
Definition entryEffects (error : RawError) : list Effect :=
  [ConsoleError "Original API Error:" error; WebhookCall error].

Definition veoSignal : string := "initiateAutoVeoKeyClaim".
Definition apiKeySignal : string := "initiateAutoApiKeyClaim".

(** The message of the specification's example, [{"error":{"code":403}}]. *)
Definition code403Json : string :=
  "{" ++ quoted "error" ++ ":{" ++ quoted "code" ++ ":403}}".

(** A parsed object whose [error.code] is the number 0, next to a second
    number. *)
Definition zeroCodeJson : string :=
  "{" ++ quoted "error" ++ ":{" ++ quoted "code" ++ ":0},"
      ++ quoted "status" ++ ":503}".

(** A first line of 40 code units that carries the SDK tag. *)
Definition taggedLine : string := "[GoogleGenerativeAI Error]: boom happens".

(** A single line of 151 code units. *)
Definition longLine : string := JsNumber.zeros 151.

(** A parsed object whose [error.code] is an empty array, next to a
    number. *)
Definition emptyCodeJson : string :=
  "{" ++ quoted "error" ++ ":{" ++ quoted "code" ++ ":[]},"
      ++ quoted "status" ++ ":404}".

(** Whether the outermost open container of a parser stack is an
    object. *)
Fixpoint bottomIsObject (stack : list Json.Frame) : bool :=
  match stack with
  | [] => false
  | [Json.FArray _] => false
  | [_] => true
  | _ :: up => bottomIsObject up
  end.

(** A parser state on the way to an object: containers are open, the
    outermost an object, or the parse is done with an object. *)
Definition parsingObject (mode : Json.Mode) (stack : list Json.Frame) : Prop :=
  match stack, mode with
  | [], Json.MDone (Json.JObject _) => True
  | [], _ => False
  | _ :: _, Json.MDone _ => False
  | _ :: _, _ => bottomIsObject stack = true
  end.

(** Whether the last code unit of [s] is a word character; [prevWord]
    answers for the empty string. *)
Fixpoint endsInWord (prevWord : bool) (s : string) : bool :=
  match s with
  | EmptyString => prevWord
  | String c rest => endsInWord (isWordChar c) rest
  end.

(* ------------------------------------------------------------------ *)
(** ** Properties *)

(** *** The computation monad *)

Lemma bind_ret {A B} (a : A) (k : A -> Js B) : bind (ret a) k = k a.
Proof. unfold bind, ret. destruct (k a) as [t r]. reflexivity. Qed.

Lemma bind_emit {B} (ev : Effect) (k : unit -> Js B) :
  bind (emit ev) k = (ev :: trace (k tt), outcome (k tt)).
Proof. unfold bind, emit. destruct (k tt) as [t r]. reflexivity. Qed.

Lemma bind_throw {A B} (e : Exception) (k : A -> Js B) :
  bind (throw e) k = throw e.
Proof. reflexivity. Qed.

Lemma tryCatch_ret {A} (a : A) (h : Exception -> Js A) :
  tryCatch (ret a) h = ret a.
Proof. reflexivity. Qed.

Lemma tryCatch_throw {A} (e : Exception) (h : Exception -> Js A) :
  tryCatch (throw e) h = h e.
Proof. unfold tryCatch, throw. destruct (h e) as [t r]. reflexivity. Qed.

Lemma ret_injective {A} (a b : A) : ret a = ret b -> a = b.
Proof. unfold ret. congruence. Qed.

Create Rewrite HintDb js.
#[local] Hint Rewrite @bind_ret @bind_emit @bind_throw @tryCatch_ret
  @tryCatch_throw : js.

(** Runs the straight-line part of a computation. *)
Ltac js_run :=
  repeat (autorewrite with js;
          cbv beta iota zeta delta
            [console_error triggerErrorWebhook eventBus_dispatch
             trace outcome fst snd]).

(** *** The detection of the code *)

Lemma matchJsonSpan_truthy (message span : string) :
  matchJsonSpan message = Some span -> JsString.truthy span = true.
Proof.
  induction message as [|c rest IH]; cbn [matchJsonSpan]; [discriminate|].
  destruct (Ascii.eqb c "{"); [|exact IH].
  destruct (upToLastBrace rest); [|exact IH].
  intros [= <-]. reflexivity.
Qed.

(** A span that does not parse leaves the code as it was: the SyntaxError
    is caught. *)
Lemma jsonErrorCode_syntax_error (message span : string) (errorCode : option string) :
  matchJsonSpan message = Some span ->
  JSON_parse span = throw SyntaxError ->
  tryCatch (jsonErrorCode message errorCode) (fun _ => ret errorCode)
  = ret errorCode.
Proof.
  intros Hs Hp. unfold jsonErrorCode. rewrite Hs, (matchJsonSpan_truthy _ _ Hs), Hp.
  js_run. reflexivity.
Qed.

Lemma jsonErrorCode_no_span (message : string) (errorCode : option string) :
  matchJsonSpan message = None ->
  tryCatch (jsonErrorCode message errorCode) (fun _ => ret errorCode)
  = ret errorCode.
Proof. intros Hs. unfold jsonErrorCode. rewrite Hs. reflexivity. Qed.

Lemma jsonErrorCode_parsed (message span : string) (errorObj : Json.Value)
  (errorCode : option string) :
  matchJsonSpan message = Some span ->
  Json.parse span = Some errorObj ->
  let code := Json.optionalMember
                (Json.optionalMember (Some errorObj) "error") "code" in
  tryCatch (jsonErrorCode message errorCode) (fun _ => ret errorCode)
  = ret (if Json.truthy code
         then match outcome (String_ code) with
              | Returned s => Some s
              | Thrown _ => errorCode
              end
         else errorCode).
Proof.
  intros Hs Hp code. unfold jsonErrorCode, JSON_parse.
  rewrite Hs, (matchJsonSpan_truthy _ _ Hs), Hp. js_run.
  fold code. destruct (Json.truthy code); [|reflexivity].
  destruct code as [v|]; cbn [String_]; [|reflexivity].
  destruct (Json.toString v); js_run; reflexivity.
Qed.

(** A value that cannot be converted leaves the code as it was: the
    TypeError of [String] is caught. *)
Lemma jsonErrorCode_type_error (message span : string)
  (errorObj code : Json.Value) (errorCode : option string) :
  matchJsonSpan message = Some span ->
  Json.parse span = Some errorObj ->
  Json.optionalMember (Json.optionalMember (Some errorObj) "error") "code"
  = Some code ->
  Json.toString code = None ->
  tryCatch (jsonErrorCode message errorCode) (fun _ => ret errorCode)
  = ret errorCode.
Proof.
  intros Hs Hp Hcode Hstr.
  rewrite (jsonErrorCode_parsed _ _ _ _ Hs Hp), Hcode.
  cbn [String_]. rewrite Hstr. destruct (Json.truthy _); reflexivity.
Qed.

Lemma jsonErrorCode_converted (message span : string)
  (errorObj code : Json.Value) (converted : string)
  (errorCode : option string) :
  matchJsonSpan message = Some span ->
  Json.parse span = Some errorObj ->
  Json.optionalMember (Json.optionalMember (Some errorObj) "error") "code"
  = Some code ->
  Json.truthy (Some code) = true ->
  Json.toString code = Some converted ->
  tryCatch (jsonErrorCode message errorCode) (fun _ => ret errorCode)
  = ret (Some converted).
Proof.
  intros Hs Hp Hcode Htruthy Hstr.
  rewrite (jsonErrorCode_parsed _ _ _ _ Hs Hp), Hcode, Htruthy.
  cbn [String_]. rewrite Hstr. reflexivity.
Qed.

Lemma jsonErrorCode_caught (message : string) (errorCode : option string) :
  exists c,
    tryCatch (jsonErrorCode message errorCode) (fun _ => ret errorCode) = ret c.
Proof.
  destruct (matchJsonSpan message) as [span|] eqn:Hs.
  - destruct (Json.parse span) as [errorObj|] eqn:Hp.
    + eexists. apply (jsonErrorCode_parsed _ _ _ _ Hs Hp).
    + eexists. apply (jsonErrorCode_syntax_error _ _ _ Hs).
      unfold JSON_parse. rewrite Hp. reflexivity.
  - eexists. apply (jsonErrorCode_no_span _ _ Hs).
Qed.

Lemma detectErrorCode_returns (message lower : string) :
  exists c, detectErrorCode message lower = ret c.
Proof.
  unfold detectErrorCode.
  destruct (falsy (priorityKeywords lower)); [|eexists; reflexivity].
  destruct (jsonErrorCode_caught message (priorityKeywords lower)) as [c Hc].
  rewrite Hc. js_run. eexists; reflexivity.
Qed.

(** Without a keyword of step 1 the code is what the three later passes
    make of the outcome of the [try] block. *)
Lemma detectErrorCode_generic (message lower : string) (c : option string) :
  priorityKeywords lower = None ->
  tryCatch (jsonErrorCode message None) (fun _ => ret None) = ret c ->
  detectErrorCode message lower
  = ret (keywordFallback lower (numericCode message c)).
Proof.
  intros Hp Hj. unfold detectErrorCode. rewrite Hp. cbn [falsy].
  rewrite Hj. js_run. reflexivity.
Qed.

Lemma detectErrorCode_priority (message lower code : string) :
  priorityKeywords lower = Some code ->
  JsString.truthy code = true ->
  detectErrorCode message lower = ret (Some code).
Proof.
  intros Hp Ht. unfold detectErrorCode. rewrite Hp. cbn [falsy].
  rewrite Ht. reflexivity.
Qed.

Lemma priorityKeywords_429 (lower : string) :
  includes lower "resource exhausted" || includes lower "quota exceeded" = true ->
  priorityKeywords lower = Some "429".
Proof. unfold priorityKeywords. intros ->. reflexivity. Qed.

(** *** The shape of every call *)

Lemma normalizeMessage_cases (error : RawError) :
  (exists e,
      (error = ErrorNonString e \/ error = OtherValue (Thrown e))
      /\ normalizeMessage error = throw e)
  \/ exists message, normalizeMessage error = ret message.
Proof.
  destruct error as [message|e|[s|e]]; cbn.
  - right. eexists; reflexivity.
  - left. exists e. split; [left|]; reflexivity.
  - right. eexists; reflexivity.
  - left. exists e. split; [right|]; reflexivity.
Qed.

Lemma handleApiError_unconvertible (error : RawError) (e : Exception) :
  normalizeMessage error = throw e ->
  handleApiError error = (entryEffects error, Thrown e).
Proof.
  intros Hn. unfold handleApiError. js_run. rewrite Hn. js_run. reflexivity.
Qed.

(** Decides the tests of the classifier one after the other. *)
Ltac split_tests :=
  repeat match goal with
         | |- context [if ?b then _ else _] => destruct b eqn:?; js_run
         end.

(** A call whose message could be read ends in one of three ways. *)
Lemma handleApiError_normalized (error : RawError) (message : string) :
  normalizeMessage error = ret message ->
  handleApiError error
  = ((entryEffects error ++ [Dispatch veoSignal])%list, Returned veoMessage)
  \/ handleApiError error
     = ((entryEffects error ++ [Dispatch apiKeySignal])%list, Returned apiKeyMessage)
  \/ exists s,
       handleApiError error = (entryEffects error, Returned s)
       /\ In s [safetyMessage; capacityMessage; unavailableMessage;
                networkMessage; defaultMessage message].
Proof.
  intros Hn.
  destruct (detectErrorCode_returns message (toLowerCase message)) as [c Hd].
  unfold handleApiError. js_run. rewrite Hn. js_run. rewrite Hd. js_run.
  split_tests; cbn [app entryEffects];
    first [ left; reflexivity
          | right; left; reflexivity
          | right; right; eexists; split; [reflexivity|]; cbn [In]; tauto ].
Qed.

Lemma handleApiError_cases (error : RawError) :
  (exists e,
      (error = ErrorNonString e \/ error = OtherValue (Thrown e))
      /\ handleApiError error = (entryEffects error, Thrown e))
  \/ exists message,
       normalizeMessage error = ret message
       /\ (handleApiError error
           = ((entryEffects error ++ [Dispatch veoSignal])%list,
              Returned veoMessage)
           \/ handleApiError error
              = ((entryEffects error ++ [Dispatch apiKeySignal])%list,
                 Returned apiKeyMessage)
           \/ exists s,
                handleApiError error = (entryEffects error, Returned s)
                /\ In s [safetyMessage; capacityMessage; unavailableMessage;
                         networkMessage; defaultMessage message]).
Proof.
  destruct (normalizeMessage_cases error) as [[e [He Hn]]|[message Hn]].
  - left. exists e. split; [exact He|].
    apply handleApiError_unconvertible. exact Hn.
  - right. exists message. split; [exact Hn|].
    apply handleApiError_normalized. exact Hn.
Qed.

(** What the call does once the code is known. *)
Ltac run_classifier Hn Hd :=
  unfold handleApiError; js_run; rewrite Hn; js_run; rewrite Hd; js_run.

Lemma strictEq_refl (code : string) : strictEq (Some code) code = true.
Proof. apply String.eqb_refl. Qed.

(** *** The first line *)

Lemma defaultMessage_length (message : string) :
  (String.length (defaultMessage message) <= 150)%nat.
Proof.
  unfold defaultMessage.
  destruct (150 <? String.length (firstSegment message))%nat eqn:Hlen; cbn [orb].
  - vm_compute. lia.
  - destruct (includes _ _).
    + vm_compute. lia.
    + apply Nat.ltb_ge. exact Hlen.
Qed.

Lemma defaultMessage_cases (message : string) :
  defaultMessage message = unexpectedMessage
  \/ defaultMessage message = firstSegment message.
Proof.
  unfold defaultMessage. destruct (_ || _); [left|right]; reflexivity.
Qed.

(* ------------------------------------------------------------------ *)
(** ** The claims *)




(** C2. Every call hands the raw error to the notification sink exactly
    once, right after the console line and before anything else happens,
    whatever the outcome of the call. *)
Theorem webhook_called_exactly_once :
  forall error,
    exists rest,
      trace (handleApiError error)
      = ConsoleError "Original API Error:" error :: WebhookCall error :: rest
      /\ webhookCalls rest = []
      /\ webhookCalls (trace (handleApiError error)) = [error].
Proof.
  intros error.
  destruct (handleApiError_cases error)
    as [[e [_ H]]|[message [_ [H|[H|[s [H _]]]]]]]; rewrite H;
    eexists; (split; [reflexivity|split; reflexivity]).
Qed.

(** C3. A message that contains "resource exhausted" or "quota exceeded"
    in any case has code "429", whatever else it contains, and the call
    returns the capacity message without publishing a signal. *)
Theorem resource_exhausted_is_429 :
  forall error message,
    normalizeMessage error = ret message ->
    includes (toLowerCase message) "resource exhausted"
    || includes (toLowerCase message) "quota exceeded" = true ->
    detectErrorCode message (toLowerCase message) = ret (Some "429")
    /\ handleApiError error
       = ([ConsoleError "Original API Error:" error; WebhookCall error],
          Returned "Server Penuh. Sila tunggu sebentar sebelum mencuba lagi.").
Proof.
  intros error message Hn Hk.
  assert (Hd : detectErrorCode message (toLowerCase message)
               = ret (Some "429")).
  { apply detectErrorCode_priority; [|reflexivity].
    apply priorityKeywords_429. exact Hk. }
  split; [exact Hd|].
  run_classifier Hn Hd.
  cbn [strictEq String.eqb Ascii.eqb Bool.eqb orb andb]. js_run.
  reflexivity.
Qed.

(** C3, witness: the phrase in upper case next to the numeric code 500. *)
Lemma resource_exhausted_is_429_witness :
  detectErrorCode "500 RESOURCE Exhausted"
    (toLowerCase "500 RESOURCE Exhausted") = ret (Some "429")
  /\ handleApiError (ErrorInstance "500 RESOURCE Exhausted")
     = ([ConsoleError "Original API Error:"
           (ErrorInstance "500 RESOURCE Exhausted");
         WebhookCall (ErrorInstance "500 RESOURCE Exhausted")],
        Returned "Server Penuh. Sila tunggu sebentar sebelum mencuba lagi.").
Proof.
  apply (resource_exhausted_is_429
           (ErrorInstance "500 RESOURCE Exhausted") "500 RESOURCE Exhausted");
    reflexivity.
Defined.

(** C4. With the code "403" or "401" and the phrase "veo auth token" in
    the lower-cased message, the call publishes "initiateAutoVeoKeyClaim"
    and returns the VEO message; the [switch] is not reached. *)
Theorem veo_token_recovery :
  forall error message code,
    normalizeMessage error = ret message ->
    detectErrorCode message (toLowerCase message) = ret (Some code) ->
    code = "403" \/ code = "401" ->
    includes (toLowerCase message) "veo auth token" = true ->
    handleApiError error
    = ([ConsoleError "Original API Error:" error; WebhookCall error;
        Dispatch "initiateAutoVeoKeyClaim"],
       Returned
         "VEO authorization failed. Please try again or check your API key.").
Proof.
  intros error message code Hn Hd Hcode Hveo.
  run_classifier Hn Hd. rewrite Hveo.
  destruct Hcode as [-> | ->]; reflexivity.
Qed.

(** C4, witness: a bracketed 403 with the phrase. *)
Lemma veo_token_recovery_witness :
  handleApiError (ErrorInstance "[403] Invalid VEO Auth Token")
  = ([ConsoleError "Original API Error:"
        (ErrorInstance "[403] Invalid VEO Auth Token");
      WebhookCall (ErrorInstance "[403] Invalid VEO Auth Token");
      Dispatch "initiateAutoVeoKeyClaim"],
     Returned
       "VEO authorization failed. Please try again or check your API key.").
Proof.
  apply (veo_token_recovery (ErrorInstance "[403] Invalid VEO Auth Token")
           "[403] Invalid VEO Auth Token" "403");
    [reflexivity | reflexivity | left; reflexivity | reflexivity].
Defined.

(** C5. With the code "403" or "401" and no VEO phrase, or with the code
    "400" and the phrase "api key not valid", the call publishes
    "initiateAutoApiKeyClaim" and returns the API key message; for "400"
    this is not the safety filter message. *)
Theorem api_key_recovery :
  forall error message code,
    normalizeMessage error = ret message ->
    detectErrorCode message (toLowerCase message) = ret (Some code) ->
    (code = "403" \/ code = "401")
    /\ includes (toLowerCase message) "veo auth token" = false
    \/ code = "400"
       /\ includes (toLowerCase message) "api key not valid" = true ->
    handleApiError error
    = ([ConsoleError "Original API Error:" error; WebhookCall error;
        Dispatch "initiateAutoApiKeyClaim"],
       Returned
         "API Key is invalid or expired. Please try again or check your API key.")
    /\ outcome (handleApiError error) <> Returned safetyMessage.
Proof.
  intros error message code Hn Hd Hcase.
  assert (H : handleApiError error
              = ([ConsoleError "Original API Error:" error; WebhookCall error;
                  Dispatch "initiateAutoApiKeyClaim"],
                 Returned apiKeyMessage)).
  { run_classifier Hn Hd.
    destruct Hcase as [[[-> | ->] Hveo] | [-> Hkey]];
      [rewrite Hveo | rewrite Hveo | rewrite Hkey];
      reflexivity. }
  split; [exact H|]. rewrite H. discriminate.
Qed.

(** C5, witness: the code "400" with the API key phrase. *)
Lemma api_key_recovery_witness :
  handleApiError (ErrorInstance "400 API key not valid")
  = ([ConsoleError "Original API Error:"
        (ErrorInstance "400 API key not valid");
      WebhookCall (ErrorInstance "400 API key not valid");
      Dispatch "initiateAutoApiKeyClaim"],
     Returned
       "API Key is invalid or expired. Please try again or check your API key.")
  /\ outcome (handleApiError (ErrorInstance "400 API key not valid"))
     <> Returned safetyMessage.
Proof.
  apply (api_key_recovery (ErrorInstance "400 API key not valid")
           "400 API key not valid" "400");
    [reflexivity | reflexivity | right; split; reflexivity].
Defined.

(** *** The brace span *)

Lemma includes_unit_false (u c : ascii) (rest : string) :
  includes (String c rest) (String u EmptyString) = false ->
  Ascii.eqb c u = false /\ includes rest (String u EmptyString) = false.
Proof.
  cbn [includes String.prefix]. intros H.
  apply orb_false_iff in H. destruct H as [Hp Hr]. split; [|exact Hr].
  destruct (ascii_dec u c) as [->|Hne].
  - destruct rest; discriminate Hp.
  - apply Ascii.eqb_neq. congruence.
Qed.

Lemma upToLastBrace_none (post : string) :
  includes post "}" = false -> upToLastBrace post = None.
Proof.
  induction post as [|c rest IH]; [reflexivity|].
  intros H. apply includes_unit_false in H. destruct H as [Hc Hr].
  cbn [upToLastBrace]. rewrite (IH Hr), Hc. reflexivity.
Qed.

Lemma upToLastBrace_last (mid post : string) :
  includes post "}" = false ->
  upToLastBrace (mid ++ "}" ++ post) = Some (mid ++ "}").
Proof.
  intros Hpost. induction mid as [|c rest IH].
  - cbn. rewrite (upToLastBrace_none _ Hpost). reflexivity.
  - cbn [append upToLastBrace]. cbn [append] in IH. rewrite IH. reflexivity.
Qed.

(** The span runs from the first opening brace to the last closing brace
    after it, whatever lies between, line feeds included. *)
Lemma matchJsonSpan_first_to_last (pre mid post : string) :
  includes pre "{" = false ->
  includes post "}" = false ->
  matchJsonSpan (pre ++ "{" ++ mid ++ "}" ++ post) = Some ("{" ++ mid ++ "}").
Proof.
  intros Hpre Hpost. induction pre as [|c rest IH].
  - cbn [append matchJsonSpan]. cbn [Ascii.eqb Bool.eqb].
    change (String "}" post) with ("}" ++ post).
    rewrite (upToLastBrace_last _ _ Hpost). reflexivity.
  - apply includes_unit_false in Hpre. destruct Hpre as [Hc Hr].
    cbn [append matchJsonSpan]. rewrite Hc. apply IH. exact Hr.
Qed.

Lemma later_passes_keep (message lower code : string) :
  JsString.truthy code = true ->
  keywordFallback lower (numericCode message (Some code)) = Some code.
Proof.
  intros Ht. unfold keywordFallback, numericCode. cbn [falsy].
  rewrite Ht. cbn [negb falsy]. rewrite Ht. reflexivity.
Qed.

(** C6, as amended. Without a keyword of step 1, the span from the first
    opening brace to the last closing brace (line feeds allowed) is
    parsed as JSON. When that succeeds, the nested [error.code] is truthy
    and its conversion to a string succeeds with a non-empty result, this
    string is the code, whatever number the message holds. When there is
    no span, when it does not parse, when [error.code] is missing or
    falsy, or when its conversion throws, nothing is raised and the
    numeric and keyword passes decide. For the message
    [{"error":{"code":403}}] the [try] block sets the code "403". *)
Theorem json_error_code :
  forall message lower span errorObj code converted,
    priorityKeywords lower = None ->
    matchJsonSpan message = Some span ->
    Json.parse span = Some errorObj ->
    Json.optionalMember (Json.optionalMember (Some errorObj) "error") "code"
    = Some code ->
    Json.truthy (Some code) = true ->
    Json.toString code = Some converted ->
    JsString.truthy converted = true ->
    (tryCatch (jsonErrorCode message None) (fun _ => ret None)
     = ret (Some converted)
     /\ detectErrorCode message lower = ret (Some converted))
    /\ (forall pre mid post,
          includes pre "{" = false ->
          includes post "}" = false ->
          matchJsonSpan (pre ++ "{" ++ mid ++ "}" ++ post)
          = Some ("{" ++ mid ++ "}"))
    /\ (forall m l,
          priorityKeywords l = None ->
          matchJsonSpan m = None
          \/ (exists sp,
                matchJsonSpan m = Some sp
                /\ JSON_parse sp = throw SyntaxError)
          \/ (exists sp obj,
                matchJsonSpan m = Some sp
                /\ Json.parse sp = Some obj
                /\ Json.truthy
                     (Json.optionalMember
                        (Json.optionalMember (Some obj) "error") "code")
                   = false)
          \/ (exists sp obj c,
                matchJsonSpan m = Some sp
                /\ Json.parse sp = Some obj
                /\ Json.optionalMember
                     (Json.optionalMember (Some obj) "error") "code"
                   = Some c
                /\ String_ (Some c) = throw TypeError) ->
          detectErrorCode m l
          = ret (keywordFallback l (numericCode m None)))
    /\ (tryCatch (jsonErrorCode code403Json None) (fun _ => ret None)
        = ret (Some "403")
        /\ detectErrorCode code403Json (toLowerCase code403Json)
           = ret (Some "403")).
Proof.
  intros message lower span errorObj code converted
         Hp Hs Hparse Hcode Htruthy Hconv Hstr.
  assert (Hj : tryCatch (jsonErrorCode message None) (fun _ => ret None)
               = ret (Some converted))
    by apply (jsonErrorCode_converted _ _ _ _ _ _ Hs Hparse Hcode Htruthy Hconv).
  split; [|split; [|split]].
  - split; [exact Hj|].
    rewrite <- (later_passes_keep message lower _ Hstr).
    apply detectErrorCode_generic; assumption.
  - intros pre mid post Hpre Hpost.
    apply matchJsonSpan_first_to_last; assumption.
  - intros m l Hl
      [Hm | [[sp [Hm Hthrow]] | [[sp [obj [Hm [Hobj Hfalsy]]]]
                                | [sp [obj [c [Hm [Hobj [Hc Hthrow]]]]]]]]];
      apply detectErrorCode_generic; try exact Hl.
    + apply jsonErrorCode_no_span. exact Hm.
    + apply (jsonErrorCode_syntax_error _ _ _ Hm Hthrow).
    + rewrite (jsonErrorCode_parsed _ _ _ _ Hm Hobj), Hfalsy. reflexivity.
    + apply (jsonErrorCode_type_error _ _ _ _ _ Hm Hobj Hc).
      cbn [String_] in Hthrow.
      destruct (Json.toString c); [discriminate Hthrow|reflexivity].
  - split; vm_compute; reflexivity.
Qed.

(** C6, witness: the number 500 stands before the object, and the code is
    the 403 of the object. *)
Lemma json_error_code_witness :
  (tryCatch (jsonErrorCode ("upstream 500: " ++ code403Json) None)
     (fun _ => ret None)
   = ret (Some "403")
   /\ detectErrorCode ("upstream 500: " ++ code403Json)
        (toLowerCase ("upstream 500: " ++ code403Json))
      = ret (Some "403"))
  /\ matchCode ("upstream 500: " ++ code403Json) = Some "500".
Proof.
  split; [|vm_compute; reflexivity].
  apply (json_error_code ("upstream 500: " ++ code403Json)
           (toLowerCase ("upstream 500: " ++ code403Json))
           code403Json
           (Json.JObject
              [("error",
                Json.JObject
                  [("code", Json.JNumber (JsNumber.ofDecimal false 403 0))])])
           (Json.JNumber (JsNumber.ofDecimal false 403 0))
           "403");
    vm_compute; reflexivity.
Defined.

(** C6, counterexample: the span parses and the parsed value has the
    nested field [error.code], the number 0 with string form "0"; the code
    is not "0" but the "503" of the numeric pass, and the call returns the
    message for an unavailable service. *)
Lemma json_code_zero_is_skipped :
  priorityKeywords (toLowerCase zeroCodeJson) = None
  /\ matchJsonSpan zeroCodeJson = Some zeroCodeJson
  /\ (exists errorObj code,
        Json.parse zeroCodeJson = Some errorObj
        /\ Json.optionalMember (Json.optionalMember (Some errorObj) "error")
             "code" = Some code
        /\ Json.toString code = Some "0")
  /\ detectErrorCode zeroCodeJson (toLowerCase zeroCodeJson)
     = ret (Some "503")
  /\ outcome (handleApiError (ErrorInstance zeroCodeJson))
     = Returned unavailableMessage.
Proof.
  split; [|split; [|split; [|split]]].
  - vm_compute. reflexivity.
  - vm_compute. reflexivity.
  - match eval vm_compute in (Json.parse zeroCodeJson) with
    | Some ?v => exists v
    end.
    exists (Json.JNumber (JsNumber.Finite false 0 0)).
    split; [|split]; vm_compute; reflexivity.
  - vm_compute. reflexivity.
  - vm_compute. reflexivity.
Qed.

(** *** Signals and returned strings *)

Lemma canned_not_recovery (message s : string) :
  In s [safetyMessage; capacityMessage; unavailableMessage; networkMessage;
        defaultMessage message] ->
  (s = veoMessage -> firstSegment message = veoMessage)
  /\ (s = apiKeyMessage -> firstSegment message = apiKeyMessage).
Proof.
  cbn [In].
  intros [<-|[<-|[<-|[<-|[<-|[]]]]]]; try (split; discriminate).
  destruct (defaultMessage_cases message) as [-> | ->].
  - split; discriminate.
  - split; trivial.
Qed.

(** C7. A call publishes nothing or exactly one signal, and that signal
    is "initiateAutoVeoKeyClaim" or "initiateAutoApiKeyClaim": each of the
    two recovery branches returns right after its publish. *)
Theorem at_most_one_signal :
  forall error,
    dispatched (trace (handleApiError error)) = []
    \/ dispatched (trace (handleApiError error)) = ["initiateAutoVeoKeyClaim"]
    \/ dispatched (trace (handleApiError error)) = ["initiateAutoApiKeyClaim"].
Proof.
  intros error.
  destruct (handleApiError_cases error)
    as [[e [_ H]]|[message [_ [H|[H|[s [H _]]]]]]]; rewrite H.
  - left. reflexivity.
  - right. left. reflexivity.
  - right. right. reflexivity.
  - left. reflexivity.
Qed.

(** C8, as amended. With no code detected, a first line of 40 code units
    that does not contain the tag "[GoogleGenerativeAI Error]" is returned
    as it is, and no signal is published. *)
Theorem short_first_line_returned :
  forall error message,
    normalizeMessage error = ret message ->
    detectErrorCode message (toLowerCase message) = ret None ->
    String.length (firstSegment message) = 40 ->
    includes (firstSegment message) "[GoogleGenerativeAI Error]" = false ->
    handleApiError error
    = ([ConsoleError "Original API Error:" error; WebhookCall error],
       Returned (firstSegment message)).
Proof.
  intros error message Hn Hd Hlen Htag.
  run_classifier Hn Hd. cbn [strictEq orb andb]. js_run.
  unfold defaultMessage. rewrite Hlen, Htag. reflexivity.
Qed.

(** C8, witness: two lines, the first of 40 code units. *)
Lemma short_first_line_returned_witness :
  handleApiError
    (ErrorInstance
       ("The model returned an empty result there" ++ newline ++ "at line two"))
  = ([ConsoleError "Original API Error:"
        (ErrorInstance
           ("The model returned an empty result there" ++ newline
            ++ "at line two"));
      WebhookCall
        (ErrorInstance
           ("The model returned an empty result there" ++ newline
            ++ "at line two"))],
     Returned
       (firstSegment
          ("The model returned an empty result there" ++ newline
           ++ "at line two"))).
Proof.
  apply (short_first_line_returned
           (ErrorInstance
              ("The model returned an empty result there" ++ newline
               ++ "at line two"))
           ("The model returned an empty result there" ++ newline
            ++ "at line two"));
    reflexivity.
Defined.

(** C8, counterexample: no code is detected and the first line has 40
    code units, but it carries the SDK tag, so the generic message is
    returned in its place. *)
Lemma tagged_first_line_replaced :
  detectErrorCode taggedLine (toLowerCase taggedLine) = ret None
  /\ String.length (firstSegment taggedLine) = 40
  /\ outcome (handleApiError (ErrorInstance taggedLine))
     = Returned unexpectedMessage
  /\ unexpectedMessage <> firstSegment taggedLine.
Proof.
  split; [|split; [|split]]; try (vm_compute; reflexivity).
  vm_compute. discriminate.
Qed.

(** C9. Whatever a call returns has at most 150 code units. *)
Theorem returned_string_at_most_150 :
  forall error s,
    outcome (handleApiError error) = Returned s ->
    (String.length s <= 150)%nat.
Proof.
  intros error s Hret.
  destruct (handleApiError_cases error)
    as [[e [_ H]]|[message [_ [H|[H|[s' [H Hin]]]]]]];
    rewrite H in Hret; cbn [outcome snd] in Hret.
  - discriminate Hret.
  - injection Hret as <-. vm_compute. lia.
  - injection Hret as <-. vm_compute. lia.
  - injection Hret as ->. cbn [In] in Hin.
    destruct Hin as [<-|[<-|[<-|[<-|[<-|[]]]]]];
      try (vm_compute; lia).
    apply defaultMessage_length.
Qed.

(** C9, witness: a first line of 151 code units is replaced by the
    generic message. *)
Lemma returned_string_at_most_150_witness :
  outcome (handleApiError (ErrorInstance longLine))
  = Returned unexpectedMessage
  /\ (String.length unexpectedMessage <= 150)%nat.
Proof.
  assert (H : outcome (handleApiError (ErrorInstance longLine))
              = Returned unexpectedMessage) by (vm_compute; reflexivity).
  split; [exact H|].
  exact (returned_string_at_most_150
           (ErrorInstance longLine) unexpectedMessage H).
Defined.

(** C10, as amended. "initiateAutoVeoKeyClaim" is published only by a
    call that returns the VEO message, and "initiateAutoApiKeyClaim" only
    by a call that returns the API key message. A call that returns one
    of the two messages has published the matching signal, or has
    published nothing and found the message as the first line of the
    normalized message. *)
Theorem signal_and_returned_message :
  forall error,
    (In "initiateAutoVeoKeyClaim" (dispatched (trace (handleApiError error)))
     -> outcome (handleApiError error) = Returned veoMessage)
    /\ (In "initiateAutoApiKeyClaim"
          (dispatched (trace (handleApiError error)))
        -> outcome (handleApiError error) = Returned apiKeyMessage)
    /\ (outcome (handleApiError error) = Returned veoMessage
        -> dispatched (trace (handleApiError error))
           = ["initiateAutoVeoKeyClaim"]
           \/ dispatched (trace (handleApiError error)) = []
              /\ exists message,
                   normalizeMessage error = ret message
                   /\ firstSegment message = veoMessage)
    /\ (outcome (handleApiError error) = Returned apiKeyMessage
        -> dispatched (trace (handleApiError error))
           = ["initiateAutoApiKeyClaim"]
           \/ dispatched (trace (handleApiError error)) = []
              /\ exists message,
                   normalizeMessage error = ret message
                   /\ firstSegment message = apiKeyMessage).
Proof.
  intros error.
  destruct (handleApiError_cases error)
    as [[e [_ H]]|[message [Hn [H|[H|[s [H Hin]]]]]]]; rewrite H;
    cbn [trace outcome fst snd entryEffects app dispatched flat_map In].
  - repeat split; (tauto || discriminate).
  - split; [reflexivity|]. split; [intros [Heq|[]]; discriminate Heq|].
    split; [left; reflexivity|discriminate].
  - split; [intros [Heq|[]]; discriminate Heq|]. split; [reflexivity|].
    split; [discriminate|left; reflexivity].
  - destruct (canned_not_recovery message s Hin) as [Hveo Hapi].
    split; [tauto|]. split; [tauto|].
    split; intros [= ->]; right; (split; [reflexivity|]); exists message;
      (split; [exact Hn|]); auto.
Qed.

(** C10, counterexample: a message that is the VEO sentence itself has no
    code; the call returns it from the first-line fallback and publishes
    nothing. *)
Lemma veo_message_without_signal :
  outcome (handleApiError (ErrorInstance veoMessage)) = Returned veoMessage
  /\ dispatched (trace (handleApiError (ErrorInstance veoMessage))) = [].
Proof. split; vm_compute; reflexivity. Qed.

(* ------------------------------------------------------------------ *)
(** ** Further properties of the classifier *)

(** *** Auxiliary facts *)

Lemma strictEq_true (c : option string) (k : string) :
  strictEq c k = true -> c = Some k.
Proof.
  destruct c as [s|]; cbn [strictEq]; [|discriminate].
  intros H. apply String.eqb_eq in H. congruence.
Qed.

Lemma prefix_unit (u c : ascii) (rest : string) :
  String.prefix (String u EmptyString) (String c rest) = Ascii.eqb c u.
Proof.
  cbn [String.prefix]. destruct (ascii_dec u c) as [->|Hne].
  - rewrite Ascii.eqb_refl. destruct rest; reflexivity.
  - symmetry. apply Ascii.eqb_neq. congruence.
Qed.

Lemma prefix_refl_app (s tl : string) : String.prefix s (s ++ tl) = true.
Proof.
  induction s as [|c s IH]; cbn [append String.prefix].
  - destruct tl; reflexivity.
  - destruct (ascii_dec c c); [exact IH|congruence].
Qed.

Lemma firstSegment_one_line (message : string) :
  includes (firstSegment message) newline = false.
Proof.
  unfold newline.
  induction message as [|c rest IH]; cbn [firstSegment]; [reflexivity|].
  destruct (Ascii.eqb c (ascii_of_nat 10)) eqn:Hc; [reflexivity|].
  cbn [includes]. rewrite prefix_unit, Hc, IH. reflexivity.
Qed.

Lemma firstSegment_prefix (message : string) :
  String.prefix (firstSegment message) message = true.
Proof.
  induction message as [|c rest IH]; cbn [firstSegment]; [reflexivity|].
  destruct (Ascii.eqb c (ascii_of_nat 10)); [reflexivity|].
  cbn [String.prefix]. destruct (ascii_dec c c); [exact IH|congruence].
Qed.

Lemma defaultMessage_spec (message : string) :
  defaultMessage message = unexpectedMessage
  \/ defaultMessage message = firstSegment message
     /\ (String.length (firstSegment message) <= 150)%nat
     /\ includes (firstSegment message) "[GoogleGenerativeAI Error]" = false.
Proof.
  unfold defaultMessage.
  destruct (150 <? String.length (firstSegment message))%nat eqn:Hlen;
    cbn [orb]; [left; reflexivity|].
  destruct (includes _ _) eqn:Htag; [left; reflexivity|].
  right. split; [reflexivity|]. split; [|reflexivity].
  apply Nat.ltb_ge. exact Hlen.
Qed.

(** *** The 400 of the safety filter *)

(** X1. Without "resource exhausted" and "quota exceeded", a message with
    "bad request" and "safety" or "filter" has code "400" whatever JSON or
    number it carries. The call returns the safety filter message, unless
    the message also has "api key not valid": then it publishes
    "initiateAutoApiKeyClaim" and returns the API key message. *)
Theorem bad_request_safety_is_400 :
  forall error message,
    normalizeMessage error = ret message ->
    includes (toLowerCase message) "resource exhausted"
    || includes (toLowerCase message) "quota exceeded" = false ->
    includes (toLowerCase message) "bad request"
    && (includes (toLowerCase message) "safety"
        || includes (toLowerCase message) "filter") = true ->
    detectErrorCode message (toLowerCase message) = ret (Some "400")
    /\ handleApiError error
       = if includes (toLowerCase message) "api key not valid"
         then ([ConsoleError "Original API Error:" error; WebhookCall error;
                Dispatch "initiateAutoApiKeyClaim"],
               Returned apiKeyMessage)
         else ([ConsoleError "Original API Error:" error; WebhookCall error],
               Returned safetyMessage).
Proof.
  intros error message Hn Hno Hbad.
  assert (Hd : detectErrorCode message (toLowerCase message)
               = ret (Some "400")).
  { apply detectErrorCode_priority; [|reflexivity].
    unfold priorityKeywords. rewrite Hno, Hbad. reflexivity. }
  split; [exact Hd|].
  run_classifier Hn Hd.
  cbn [strictEq String.eqb Ascii.eqb Bool.eqb orb andb].
  destruct (includes (toLowerCase message) "api key not valid"); reflexivity.
Qed.

(** X1, witness: the keywords next to a JSON object with another code. *)
Lemma bad_request_safety_is_400_witness :
  detectErrorCode
    ("Bad Request: safety filter " ++ code403Json)
    (toLowerCase ("Bad Request: safety filter " ++ code403Json))
  = ret (Some "400")
  /\ handleApiError
       (ErrorInstance ("Bad Request: safety filter " ++ code403Json))
     = ([ConsoleError "Original API Error:"
           (ErrorInstance ("Bad Request: safety filter " ++ code403Json));
         WebhookCall
           (ErrorInstance ("Bad Request: safety filter " ++ code403Json))],
        Returned safetyMessage).
Proof.
  apply (bad_request_safety_is_400
           (ErrorInstance ("Bad Request: safety filter " ++ code403Json))
           ("Bad Request: safety filter " ++ code403Json));
    reflexivity.
Defined.

(** *** The codes of the [switch] *)

(** X2. The codes "429", "500", "503" and "NET" select their fixed
    message and publish nothing; "500" and "503" share one message. The
    code "400" selects the safety filter message, and publishes nothing,
    when the message lacks "api key not valid". *)
Theorem code_selects_fixed_message :
  forall error message code,
    normalizeMessage error = ret message ->
    detectErrorCode message (toLowerCase message) = ret (Some code) ->
    code = "429" \/ code = "500" \/ code = "503" \/ code = "NET"
    \/ code = "400"
       /\ includes (toLowerCase message) "api key not valid" = false ->
    handleApiError error
    = (entryEffects error,
       Returned
         (if String.eqb code "400" then safetyMessage
          else if String.eqb code "429" then capacityMessage
          else if String.eqb code "NET" then networkMessage
          else unavailableMessage)).
Proof.
  intros error message code Hn Hd Hcode.
  run_classifier Hn Hd.
  destruct Hcode as [-> | [-> | [-> | [-> | [-> Hkey]]]]];
    try rewrite Hkey; reflexivity.
Qed.

(** X2, witness: a standalone 503. *)
Lemma code_selects_fixed_message_witness :
  handleApiError (ErrorInstance "upstream answered 503")
  = (entryEffects (ErrorInstance "upstream answered 503"),
     Returned
       (if String.eqb "503" "400" then safetyMessage
        else if String.eqb "503" "429" then capacityMessage
        else if String.eqb "503" "NET" then networkMessage
        else unavailableMessage)).
Proof.
  apply (code_selects_fixed_message
           (ErrorInstance "upstream answered 503")
           "upstream answered 503" "503");
    [reflexivity | reflexivity | right; right; left; reflexivity].
Defined.

(** X3. A code that the classifier has no message for, or no code at all,
    leads to the first-line fallback and publishes nothing: the first line
    is returned when it has at most 150 code units and no SDK tag, and the
    generic message otherwise. *)
Theorem unmapped_code_falls_back :
  forall error message errorCode,
    normalizeMessage error = ret message ->
    detectErrorCode message (toLowerCase message) = ret errorCode ->
    (forall k, In k ["400"; "401"; "403"; "429"; "500"; "503"; "NET"] ->
               errorCode <> Some k) ->
    handleApiError error
    = (entryEffects error,
       Returned
         (if (150 <? String.length (firstSegment message))%nat
             || includes (firstSegment message) "[GoogleGenerativeAI Error]"
          then unexpectedMessage
          else firstSegment message)).
Proof.
  intros error message errorCode Hn Hd Hun.
  assert (Hk : forall k,
             In k ["400"; "401"; "403"; "429"; "500"; "503"; "NET"] ->
             strictEq errorCode k = false).
  { intros k Hin. destruct (strictEq errorCode k) eqn:E; [|reflexivity].
    apply strictEq_true in E. exfalso. exact (Hun k Hin E). }
  run_classifier Hn Hd.
  rewrite !Hk by (cbn [In]; tauto).
  reflexivity.
Qed.

(** X3, witness: the code "404" has no message of its own. *)
Lemma unmapped_code_falls_back_witness :
  handleApiError (ErrorInstance ("model not found 404" ++ newline ++ "at x"))
  = (entryEffects (ErrorInstance ("model not found 404" ++ newline ++ "at x")),
     Returned
       (if (150 <? String.length
                     (firstSegment ("model not found 404" ++ newline ++ "at x")))%nat
           || includes
                (firstSegment ("model not found 404" ++ newline ++ "at x"))
                "[GoogleGenerativeAI Error]"
        then unexpectedMessage
        else firstSegment ("model not found 404" ++ newline ++ "at x"))).
Proof.
  apply (unmapped_code_falls_back
           (ErrorInstance ("model not found 404" ++ newline ++ "at x"))
           ("model not found 404" ++ newline ++ "at x") (Some "404"));
    [reflexivity | reflexivity |].
  intros k Hin. cbn [In] in Hin.
  destruct Hin as [<-|[<-|[<-|[<-|[<-|[<-|[<-|[]]]]]]]]; discriminate.
Defined.

(** *** Signals *)

(** X4. A signal is published only for the codes "403" and "401", and for
    "400" when the message has "api key not valid". *)
Theorem signal_needs_auth_code :
  forall error message errorCode,
    normalizeMessage error = ret message ->
    detectErrorCode message (toLowerCase message) = ret errorCode ->
    dispatched (trace (handleApiError error)) <> [] ->
    errorCode = Some "403" \/ errorCode = Some "401"
    \/ errorCode = Some "400"
       /\ includes (toLowerCase message) "api key not valid" = true.
Proof.
  intros error message errorCode Hn Hd Hsig.
  destruct (strictEq errorCode "403") eqn:E403;
    [left; apply strictEq_true; exact E403|].
  destruct (strictEq errorCode "401") eqn:E401;
    [right; left; apply strictEq_true; exact E401|].
  destruct (strictEq errorCode "400") eqn:E400.
  - destruct (includes (toLowerCase message) "api key not valid") eqn:Hkey.
    + right. right. split; [apply strictEq_true; exact E400|reflexivity].
    + exfalso. apply Hsig. run_classifier Hn Hd.
      rewrite E403, E401, E400, Hkey. reflexivity.
  - exfalso. apply Hsig. run_classifier Hn Hd.
    rewrite E403, E401, E400. cbn [orb andb]. split_tests; reflexivity.
Qed.

(** X4, witness: a 401. *)
Lemma signal_needs_auth_code_witness :
  Some "401" = Some "403" \/ Some "401" = Some "401"
  \/ Some "401" = Some "400"
     /\ includes (toLowerCase "[401] unauthorized") "api key not valid" = true.
Proof.
  apply (signal_needs_auth_code (ErrorInstance "[401] unauthorized")
           "[401] unauthorized" (Some "401"));
    [reflexivity | reflexivity | vm_compute; discriminate].
Defined.

(** X5. The outcome of a call and the signals it publishes depend on the
    normalized message only: an [Error] with a message and a thrown value
    that converts to the same string are classified alike. *)
Theorem message_decides :
  forall error1 error2 message,
    normalizeMessage error1 = ret message ->
    normalizeMessage error2 = ret message ->
    outcome (handleApiError error1) = outcome (handleApiError error2)
    /\ dispatched (trace (handleApiError error1))
       = dispatched (trace (handleApiError error2)).
Proof.
  intros error1 error2 message H1 H2.
  destruct (detectErrorCode_returns message (toLowerCase message)) as [c Hd].
  unfold handleApiError. js_run. rewrite H1, H2. js_run. rewrite Hd. js_run.
  split_tests; split; reflexivity.
Qed.

(** X5, witness: an [Error] and a thrown string. *)
Lemma message_decides_witness :
  outcome (handleApiError (ErrorInstance "[403] denied"))
  = outcome (handleApiError (OtherValue (Returned "[403] denied")))
  /\ dispatched (trace (handleApiError (ErrorInstance "[403] denied")))
     = dispatched (trace (handleApiError (OtherValue (Returned "[403] denied")))).
Proof.
  apply (message_decides (ErrorInstance "[403] denied")
           (OtherValue (Returned "[403] denied")) "[403] denied");
    reflexivity.
Defined.

(** *** What a call can return *)

Lemma returned_string_cases :
  forall error message s,
    normalizeMessage error = ret message ->
    outcome (handleApiError error) = Returned s ->
    In s [veoMessage; apiKeyMessage; safetyMessage; capacityMessage;
          unavailableMessage; networkMessage; unexpectedMessage]
    \/ s = firstSegment message
       /\ String.prefix s message = true
       /\ (String.length s <= 150)%nat
       /\ includes s "[GoogleGenerativeAI Error]" = false.
Proof.
  intros error message s Hn Hret.
  destruct (handleApiError_cases error)
    as [[e [_ H]]|[message' [Hn' [H|[H|[s' [H Hin]]]]]]];
    rewrite H in Hret; cbn [outcome snd] in Hret.
  - discriminate Hret.
  - injection Hret as <-. left. cbn [In]. tauto.
  - injection Hret as <-. left. cbn [In]. tauto.
  - injection Hret as ->.
    rewrite Hn in Hn'. apply ret_injective in Hn'. subst message'.
    cbn [In] in Hin.
    destruct Hin as [<-|[<-|[<-|[<-|[<-|[]]]]]];
      try (left; cbn [In]; tauto).
    destruct (defaultMessage_spec message) as [-> | [-> [Hlen Htag]]].
    + left. cbn [In]. tauto.
    + right. split; [reflexivity|]. split; [apply firstSegment_prefix|].
      split; assumption.
Qed.

(** X6. Whatever a call returns is one of the seven fixed messages, or
    the first line of the normalized message; in the latter case it is a
    prefix of the message, has at most 150 code units and lacks the SDK
    tag. *)
Theorem returned_string_range :
  forall error message s,
    normalizeMessage error = ret message ->
    outcome (handleApiError error) = Returned s ->
    In s [veoMessage; apiKeyMessage; safetyMessage; capacityMessage;
          unavailableMessage; networkMessage; unexpectedMessage]
    \/ s = firstSegment message
       /\ String.prefix s message = true
       /\ (String.length s <= 150)%nat
       /\ includes s "[GoogleGenerativeAI Error]" = false.
Proof.
  intros error message s Hn Hret.
  exact (returned_string_cases error message s Hn Hret).
Qed.

(** X6, witness: a plain sentence comes back as it is. *)
Lemma returned_string_range_witness :
  In "disk is full"
    [veoMessage; apiKeyMessage; safetyMessage; capacityMessage;
     unavailableMessage; networkMessage; unexpectedMessage]
  \/ "disk is full" = firstSegment "disk is full"
     /\ String.prefix "disk is full" "disk is full" = true
     /\ (String.length "disk is full" <= 150)%nat
     /\ includes "disk is full" "[GoogleGenerativeAI Error]" = false.
Proof.
  apply (returned_string_range (ErrorInstance "disk is full")
           "disk is full" "disk is full");
    reflexivity.
Defined.

(** X7. The returned string never contains a line feed. *)
Theorem returned_string_is_one_line :
  forall error s,
    outcome (handleApiError error) = Returned s ->
    includes s newline = false.
Proof.
  intros error s Hret.
  destruct (handleApiError_cases error)
    as [[e [_ H]]|[message [Hn _]]].
  - rewrite H in Hret. discriminate Hret.
  - destruct (returned_string_cases error message s Hn Hret)
      as [Hin | [-> _]].
    + cbn [In] in Hin.
      destruct Hin as [<-|[<-|[<-|[<-|[<-|[<-|[<-|[]]]]]]]];
        vm_compute; reflexivity.
    + apply firstSegment_one_line.
Qed.

(** X7, witness: a message of two lines. *)
Lemma returned_string_is_one_line_witness :
  includes "first" newline = false.
Proof.
  apply (returned_string_is_one_line
           (ErrorInstance ("first" ++ newline ++ "second")) "first").
  vm_compute. reflexivity.
Defined.

(** *** The numeric pass *)

Lemma bracketedCode_shape (s code : string) :
  bracketedCode s = Some code ->
  exists d1 d2 d3 tl,
    s = String "[" (String d1 (String d2 (String d3 (String "]" tl))))
    /\ code = String d1 (String d2 (String d3 EmptyString))
    /\ isDigit d1 = true /\ isDigit d2 = true /\ isDigit d3 = true.
Proof.
  destruct s as [|o [|d1 [|d2 [|d3 [|c tl]]]]]; cbn [bracketedCode];
    try discriminate.
  destruct (Ascii.eqb o "[") eqn:Ho; [|discriminate].
  destruct (isDigit d1) eqn:H1; [|discriminate].
  destruct (isDigit d2) eqn:H2; [|discriminate].
  destruct (isDigit d3) eqn:H3; [|discriminate].
  destruct (Ascii.eqb c "]") eqn:Hc; [|discriminate].
  cbn [andb]. intros [= <-].
  apply Ascii.eqb_eq in Ho, Hc. subst o c.
  exists d1, d2, d3, tl. repeat split; try reflexivity; assumption.
Qed.

Lemma standaloneCode_shape (prevWord : bool) (s code : string) :
  standaloneCode prevWord s = Some code ->
  exists d1 d2 d3 tl,
    s = String d1 (String d2 (String d3 tl))
    /\ code = String d1 (String d2 (String d3 EmptyString))
    /\ isDigit d1 = true /\ isDigit d2 = true /\ isDigit d3 = true
    /\ prevWord = false
    /\ match tl with
       | EmptyString => True
       | String c _ => isWordChar c = false
       end.
Proof.
  destruct s as [|d1 [|d2 [|d3 tl]]]; cbn [standaloneCode]; try discriminate.
  destruct prevWord; [discriminate|].
  destruct (isDigit d1) eqn:H1; [|discriminate].
  destruct (isDigit d2) eqn:H2; [|discriminate].
  destruct (isDigit d3) eqn:H3; [|discriminate].
  cbn [negb andb].
  destruct tl as [|c tl'].
  - intros [= <-]. exists d1, d2, d3, EmptyString.
    repeat split; try reflexivity; assumption.
  - destruct (isWordChar c) eqn:Hw; [discriminate|].
    intros [= <-]. exists d1, d2, d3, (String c tl').
    repeat split; try reflexivity; assumption.
Qed.

Lemma includes_tail (c : ascii) (hay needle : string) :
  includes hay needle = true -> includes (String c hay) needle = true.
Proof. intros H. cbn [includes]. rewrite H. apply orb_true_r. Qed.

Lemma includes_head (hay needle tl : string) :
  hay = needle ++ tl -> includes hay needle = true.
Proof.
  intros ->. destruct needle; cbn [includes append].
  - destruct tl; reflexivity.
  - change (String a (needle ++ tl)) with (String a needle ++ tl).
    rewrite prefix_refl_app. reflexivity.
Qed.

Lemma matchCodeFrom_sound (s : string) :
  forall prevWord code,
    matchCodeFrom prevWord s = Some code ->
    (exists d1 d2 d3,
        code = String d1 (String d2 (String d3 EmptyString))
        /\ isDigit d1 = true /\ isDigit d2 = true /\ isDigit d3 = true)
    /\ includes s code = true.
Proof.
  induction s as [|c rest IH]; intros prevWord code.
  - cbn. discriminate.
  - cbn [matchCodeFrom].
    destruct (bracketedCode (String c rest)) as [b|] eqn:Hb.
    + intros [= <-].
      destruct (bracketedCode_shape _ _ Hb)
        as (d1 & d2 & d3 & tl & Hs & -> & H1 & H2 & H3).
      split; [exists d1, d2, d3; tauto|].
      injection Hs as -> ->. apply includes_tail.
      apply (includes_head _ _ (String "]" tl)). reflexivity.
    + destruct (standaloneCode prevWord (String c rest)) as [b|] eqn:Hs.
      * intros [= <-].
        destruct (standaloneCode_shape _ _ _ Hs)
          as (d1 & d2 & d3 & tl & Heq & -> & H1 & H2 & H3 & _).
        split; [exists d1, d2, d3; tauto|].
        rewrite Heq. apply (includes_head _ _ tl). reflexivity.
      * intros H. destruct (IH _ _ H) as [Hd Hi].
        split; [exact Hd|]. apply includes_tail. exact Hi.
Qed.

(** X8. A code found by the numeric pass consists of exactly three
    decimal digits and occurs in the message. *)
Theorem numeric_code_is_three_digits :
  forall message code,
    matchCode message = Some code ->
    (exists d1 d2 d3,
        code = String d1 (String d2 (String d3 EmptyString))
        /\ isDigit d1 = true /\ isDigit d2 = true /\ isDigit d3 = true)
    /\ includes message code = true.
Proof.
  intros message code H. exact (matchCodeFrom_sound message false code H).
Qed.

(** X8, witness: a port number is no code, the status after it is. *)
Lemma numeric_code_is_three_digits_witness :
  (exists d1 d2 d3,
      "502" = String d1 (String d2 (String d3 EmptyString))
      /\ isDigit d1 = true /\ isDigit d2 = true /\ isDigit d3 = true)
  /\ includes "port 8080 answered 502" "502" = true.
Proof.
  apply (numeric_code_is_three_digits "port 8080 answered 502" "502").
  reflexivity.
Defined.

Lemma three_digits_truthy (code : string) :
  (exists d1 d2 d3,
      code = String d1 (String d2 (String d3 EmptyString))
      /\ isDigit d1 = true /\ isDigit d2 = true /\ isDigit d3 = true) ->
  JsString.truthy code = true.
Proof. intros (d1 & d2 & d3 & -> & _). reflexivity. Qed.

(** X9. A three-digit number in the message outranks the general
    keywords: when step 1 finds no keyword and the [try] block leaves the
    code unset, the first numeric match is the code. *)
Theorem numeric_code_precedes_keywords :
  forall message lower code,
    priorityKeywords lower = None ->
    tryCatch (jsonErrorCode message None) (fun _ => ret None) = ret None ->
    matchCode message = Some code ->
    detectErrorCode message lower = ret (Some code).
Proof.
  intros message lower code Hp Hj Hm.
  rewrite (detectErrorCode_generic _ _ _ Hp Hj).
  unfold numericCode. cbn [falsy]. rewrite Hm.
  unfold keywordFallback. cbn [falsy].
  rewrite (three_digits_truthy code
             (proj1 (matchCodeFrom_sound message false code Hm))).
  reflexivity.
Qed.

(** X9, witness: "permission denied" would give 403, the number wins. *)
Lemma numeric_code_precedes_keywords_witness :
  detectErrorCode "Permission denied (500)"
    (toLowerCase "Permission denied (500)")
  = ret (Some "500").
Proof.
  apply (numeric_code_precedes_keywords "Permission denied (500)"
           (toLowerCase "Permission denied (500)") "500");
    reflexivity.
Defined.

(** *** Messages without braces and digits *)

Lemma includes_unit_none (u : ascii) (s : string) :
  includes s (String u EmptyString) = false ->
  Forall (fun c => Ascii.eqb c u = false) (list_ascii_of_string s).
Proof.
  induction s as [|c rest IH]; intros H; cbn [list_ascii_of_string].
  - constructor.
  - apply includes_unit_false in H. destruct H as [Hc Hr].
    constructor; [exact Hc | exact (IH Hr)].
Qed.

Lemma matchJsonSpan_no_open (message : string) :
  includes message "{" = false -> matchJsonSpan message = None.
Proof.
  induction message as [|c rest IH]; intros H; [reflexivity|].
  apply includes_unit_false in H. destruct H as [Hc Hr].
  cbn [matchJsonSpan]. rewrite Hc. exact (IH Hr).
Qed.

Lemma matchJsonSpan_no_close (message : string) :
  includes message "}" = false -> matchJsonSpan message = None.
Proof.
  induction message as [|c rest IH]; intros H; [reflexivity|].
  apply includes_unit_false in H. destruct H as [Hc Hr].
  cbn [matchJsonSpan]. rewrite (upToLastBrace_none _ Hr), (IH Hr).
  destruct (Ascii.eqb c "{"); reflexivity.
Qed.

Lemma bracketedCode_second_not_digit (o d : ascii) (rest : string) :
  isDigit d = false -> bracketedCode (String o (String d rest)) = None.
Proof.
  intros H. destruct rest as [|d2 [|d3 [|c tl]]]; cbn [bracketedCode];
    try reflexivity.
  rewrite H. destruct (Ascii.eqb o "["); reflexivity.
Qed.

Lemma standaloneCode_head_not_digit (p : bool) (c : ascii) (rest : string) :
  isDigit c = false -> standaloneCode p (String c rest) = None.
Proof.
  intros H. destruct rest as [|d2 [|d3 tl]]; cbn [standaloneCode];
    try reflexivity.
  rewrite H. destruct (negb p); reflexivity.
Qed.

Lemma matchCodeFrom_no_digit (s : string) :
  Forall (fun c => isDigit c = false) (list_ascii_of_string s) ->
  forall p, matchCodeFrom p s = None.
Proof.
  induction s as [|c rest IH]; intros H p; [reflexivity|].
  cbn [list_ascii_of_string] in H. inversion H as [|? ? Hc Hr]; subst.
  cbn [matchCodeFrom].
  rewrite (standaloneCode_head_not_digit _ _ _ Hc).
  destruct rest as [|d rest'].
  - reflexivity.
  - cbn [list_ascii_of_string] in Hr. inversion Hr as [|? ? Hd _]; subst.
    rewrite (bracketedCode_second_not_digit _ _ _ Hd).
    apply IH. exact Hr.
Qed.

(** X10. A message with no opening brace and no digit is classified by
    the keywords alone: a keyword of step 1 if there is one, the general
    keywords otherwise. *)
Theorem keywords_alone_decide :
  forall message lower,
    includes message "{" = false ->
    Forall (fun c => isDigit c = false) (list_ascii_of_string message) ->
    detectErrorCode message lower
    = ret (keywordFallback lower (priorityKeywords lower)).
Proof.
  intros message lower Hbrace Hdigit.
  destruct (priorityKeywords lower) as [code|] eqn:Hp.
  - assert (Ht : JsString.truthy code = true).
    { unfold priorityKeywords in Hp.
      destruct (_ || _) in Hp; [injection Hp as <-; reflexivity|].
      destruct (_ && _) in Hp; [injection Hp as <-; reflexivity|].
      discriminate Hp. }
    rewrite (detectErrorCode_priority _ _ _ Hp Ht).
    unfold keywordFallback. cbn [falsy]. rewrite Ht. reflexivity.
  - rewrite (detectErrorCode_generic message lower None Hp).
    + unfold numericCode, matchCode. cbn [falsy].
      rewrite (matchCodeFrom_no_digit _ Hdigit). reflexivity.
    + apply jsonErrorCode_no_span. apply matchJsonSpan_no_open. exact Hbrace.
Qed.

(** X10, witness: a sentence with a general keyword. *)
Lemma keywords_alone_decide_witness :
  detectErrorCode "Internal Server Error" (toLowerCase "Internal Server Error")
  = ret (keywordFallback (toLowerCase "Internal Server Error")
           (priorityKeywords (toLowerCase "Internal Server Error"))).
Proof.
  apply (keywords_alone_decide "Internal Server Error"
           (toLowerCase "Internal Server Error")).
  - reflexivity.
  - repeat constructor.
Defined.

(** X11. "failed to fetch" gives the code "NET" and the network message
    when nothing ranks before it: no brace span, no numeric code and none
    of the seven keywords that are tried earlier. *)
Theorem failed_to_fetch_is_network_error :
  forall error message,
    normalizeMessage error = ret message ->
    matchJsonSpan message = None ->
    matchCode message = None ->
    existsb (includes (toLowerCase message))
      ["resource exhausted"; "quota exceeded"; "permission denied";
       "api key not valid"; "bad request"; "server error"; "503"] = false ->
    includes (toLowerCase message) "failed to fetch" = true ->
    detectErrorCode message (toLowerCase message) = ret (Some "NET")
    /\ handleApiError error
       = ([ConsoleError "Original API Error:" error; WebhookCall error],
          Returned "Network error. Please check your internet connection.").
Proof.
  intros error message Hn Hspan Hnum Hnone Hfetch.
  cbn [existsb] in Hnone.
  repeat (apply orb_false_iff in Hnone; destruct Hnone as [? Hnone]).
  assert (Hp : priorityKeywords (toLowerCase message) = None).
  { unfold priorityKeywords.
    repeat match goal with H : includes _ _ = false |- _ => rewrite H; clear H end.
    reflexivity. }
  assert (Hd : detectErrorCode message (toLowerCase message)
               = ret (Some "NET")).
  { rewrite (detectErrorCode_generic message _ None Hp
               (jsonErrorCode_no_span _ _ Hspan)).
    unfold numericCode, keywordFallback. cbn [falsy]. rewrite Hnum.
    cbn [falsy].
    repeat match goal with H : includes _ _ = false |- _ => rewrite H; clear H end.
    rewrite Hfetch. reflexivity. }
  split; [exact Hd|].
  run_classifier Hn Hd. reflexivity.
Qed.

(** X11, witness: the browser's message. *)
Lemma failed_to_fetch_is_network_error_witness :
  detectErrorCode "TypeError: Failed to fetch"
    (toLowerCase "TypeError: Failed to fetch") = ret (Some "NET")
  /\ handleApiError (ErrorInstance "TypeError: Failed to fetch")
     = ([ConsoleError "Original API Error:"
           (ErrorInstance "TypeError: Failed to fetch");
         WebhookCall (ErrorInstance "TypeError: Failed to fetch")],
        Returned "Network error. Please check your internet connection.").
Proof.
  apply (failed_to_fetch_is_network_error
           (ErrorInstance "TypeError: Failed to fetch")
           "TypeError: Failed to fetch");
    reflexivity.
Defined.

Lemma matchCodeFrom_bracketed (p : bool) (s code : string) :
  bracketedCode s = Some code -> matchCodeFrom p s = Some code.
Proof.
  destruct s as [|c rest]; [discriminate|].
  intros H. cbn [matchCodeFrom]. rewrite H. reflexivity.
Qed.

Lemma matchCodeFrom_skip (p : bool) (c : ascii) (rest : string) :
  bracketedCode (String c rest) = None ->
  standaloneCode p (String c rest) = None ->
  matchCodeFrom p (String c rest) = matchCodeFrom (isWordChar c) rest.
Proof. intros Hb Hs. cbn [matchCodeFrom]. rewrite Hb, Hs. reflexivity. Qed.

(** X12. A bracketed three-digit number that no digit precedes is the
    numeric code, whatever follows it. *)
Theorem bracketed_code_is_found :
  forall pre d1 d2 d3 post,
    Forall (fun c => isDigit c = false) (list_ascii_of_string pre) ->
    isDigit d1 = true -> isDigit d2 = true -> isDigit d3 = true ->
    matchCode
      (pre ++ String "[" (String d1 (String d2 (String d3 (String "]" post)))))
    = Some (String d1 (String d2 (String d3 EmptyString))).
Proof.
  intros pre d1 d2 d3 post Hpre H1 H2 H3.
  enough (H : forall p,
             matchCodeFrom p
               (pre ++ String "[" (String d1 (String d2 (String d3
                                                       (String "]" post)))))
             = Some (String d1 (String d2 (String d3 EmptyString))))
    by apply H.
  induction pre as [|c rest IH]; intros p.
  - apply matchCodeFrom_bracketed. cbn [append bracketedCode].
    rewrite H1, H2, H3. reflexivity.
  - cbn [list_ascii_of_string] in Hpre.
    inversion Hpre as [|? ? Hc Hr]; subst.
    change (String c rest ++ ?x) with (String c (rest ++ x)).
    cbn [append]. rewrite matchCodeFrom_skip.
    + apply (IH Hr).
    + destruct rest as [|d rest'].
      * apply bracketedCode_second_not_digit. reflexivity.
      * cbn [list_ascii_of_string] in Hr.
        inversion Hr as [|? ? Hd _]; subst.
        apply bracketedCode_second_not_digit. exact Hd.
    + apply standaloneCode_head_not_digit. exact Hc.
Qed.

(** X12, witness: the bracketed code comes before a standalone one. *)
Lemma bracketed_code_is_found_witness :
  matchCode ("Request failed " ++ "[404] then 500") = Some "404".
Proof.
  apply (bracketed_code_is_found "Request failed " "4" "0" "4" " then 500");
    [repeat constructor | reflexivity | reflexivity | reflexivity].
Defined.

(** X13. When the message has no brace span, a detected code is "NET" or
    consists of three decimal digits. *)
Theorem code_without_json_is_numeric_or_net :
  forall message lower code,
    matchJsonSpan message = None ->
    detectErrorCode message lower = ret (Some code) ->
    code = "NET"
    \/ exists d1 d2 d3,
         code = String d1 (String d2 (String d3 EmptyString))
         /\ isDigit d1 = true /\ isDigit d2 = true /\ isDigit d3 = true.
Proof.
  intros message lower code Hspan Hd.
  destruct (priorityKeywords lower) as [k|] eqn:Hp.
  - assert (Hk : k = "429" \/ k = "400").
    { unfold priorityKeywords in Hp.
      destruct (_ || _) in Hp; [injection Hp as <-; tauto|].
      destruct (_ && _) in Hp; [injection Hp as <-; tauto|].
      discriminate Hp. }
    assert (Ht : JsString.truthy k = true) by (destruct Hk; subst; reflexivity).
    rewrite (detectErrorCode_priority _ _ _ Hp Ht) in Hd.
    apply ret_injective in Hd. injection Hd as <-.
    destruct Hk as [-> | ->];
      [right; exists "4"%char, "2"%char, "9"%char
      |right; exists "4"%char, "0"%char, "0"%char]; repeat split.
  - rewrite (detectErrorCode_generic message lower None Hp
               (jsonErrorCode_no_span _ _ Hspan)) in Hd.
    apply ret_injective in Hd.
    unfold numericCode, matchCode in Hd. cbn [falsy] in Hd.
    destruct (matchCodeFrom false message) as [n|] eqn:Hm.
    + destruct (matchCodeFrom_sound _ _ _ Hm) as [Hn _].
      unfold keywordFallback in Hd. cbn [falsy] in Hd.
      rewrite (three_digits_truthy n Hn) in Hd. cbn [negb] in Hd.
      injection Hd as <-. right. exact Hn.
    + unfold keywordFallback in Hd. cbn [falsy] in Hd.
      destruct (_ || _) in Hd;
        [injection Hd as <-; (right; exists "4"%char, "0"%char, "3"%char; repeat split)|].
      destruct (includes lower "bad request") in Hd;
        [injection Hd as <-; (right; exists "4"%char, "0"%char, "0"%char; repeat split)|].
      destruct (_ || _) in Hd;
        [injection Hd as <-; (right; exists "5"%char, "0"%char, "0"%char; repeat split)|].
      destruct (includes lower "failed to fetch") in Hd;
        [injection Hd as <-; left; reflexivity|].
      discriminate Hd.
Qed.

(** X13, witness: the keyword "server error". *)
Lemma code_without_json_is_numeric_or_net_witness :
  "500" = "NET"
  \/ exists d1 d2 d3,
       "500" = String d1 (String d2 (String d3 EmptyString))
       /\ isDigit d1 = true /\ isDigit d2 = true /\ isDigit d3 = true.
Proof.
  apply (code_without_json_is_numeric_or_net "Internal Server Error"
           (toLowerCase "Internal Server Error") "500");
    reflexivity.
Defined.

(** X14. A truthy [error.code] whose string form is empty, as that of an
    empty array, counts as no code: the numeric and keyword passes run as
    if the code were unset, and the empty string stays the code only when
    they find nothing. *)
Theorem empty_json_code_is_passed_over :
  forall message lower span errorObj code,
    priorityKeywords lower = None ->
    matchJsonSpan message = Some span ->
    Json.parse span = Some errorObj ->
    Json.optionalMember (Json.optionalMember (Some errorObj) "error") "code"
    = Some code ->
    Json.truthy (Some code) = true ->
    Json.toString code = Some EmptyString ->
    detectErrorCode message lower
    = ret (match keywordFallback lower (numericCode message None) with
           | Some later => Some later
           | None => Some EmptyString
           end).
Proof.
  intros message lower span errorObj code Hp Hs Hparse Hcode Htruthy Hstr.
  rewrite (detectErrorCode_generic message lower (Some EmptyString) Hp).
  - unfold numericCode. cbn [falsy JsString.truthy negb].
    destruct (matchCode message) as [n|].
    + unfold keywordFallback.
      repeat match goal with
             | |- context [if ?b then _ else _] => destruct b
             end; reflexivity.
    + unfold keywordFallback. cbn [falsy JsString.truthy negb].
      repeat match goal with
             | |- context [if ?b then _ else _] => destruct b
             end; reflexivity.
  - apply (jsonErrorCode_converted _ _ _ _ _ _ Hs Hparse Hcode Htruthy Hstr).
Qed.

(** X14, witness: the code is an empty array, a number stands beside it. *)
Lemma empty_json_code_is_passed_over_witness :
  detectErrorCode emptyCodeJson (toLowerCase emptyCodeJson)
  = ret (match keywordFallback (toLowerCase emptyCodeJson)
                 (numericCode emptyCodeJson None) with
         | Some later => Some later
         | None => Some EmptyString
         end).
Proof.
  apply (empty_json_code_is_passed_over emptyCodeJson
           (toLowerCase emptyCodeJson) emptyCodeJson
           (Json.JObject
              [("error", Json.JObject [("code", Json.JArray [])]);
               ("status", Json.JNumber (JsNumber.ofDecimal false 404 0))])
           (Json.JArray []));
    vm_compute; reflexivity.
Defined.

(** *** The parsed span *)

Lemma matchJsonSpan_starts_with_brace (message span : string) :
  matchJsonSpan message = Some span ->
  exists body, span = String "{" body.
Proof.
  induction message as [|c rest IH]; cbn [matchJsonSpan]; [discriminate|].
  destruct (Ascii.eqb c "{") eqn:Hc; [|exact IH].
  destruct (upToLastBrace rest) as [body|]; [|exact IH].
  intros [= <-]. apply Ascii.eqb_eq in Hc. subst c.
  exists body. reflexivity.
Qed.

Lemma complete_parsingObject (v : Json.Value) (stack : list Json.Frame)
  (mode' : Json.Mode) (stack' : list Json.Frame) :
  bottomIsObject stack = true ->
  Json.complete v stack = Some (mode', stack') ->
  parsingObject mode' stack'.
Proof.
  destruct stack as [|[done|done|done key] up]; cbn [Json.complete];
    try discriminate; intros Hb [= <- <-];
    destruct up; cbn in *; congruence.
Qed.

Lemma step_parsingObject (mode : Json.Mode) (stack : list Json.Frame)
  (t : Json.Token) (mode' : Json.Mode) (stack' : list Json.Frame) :
  parsingObject mode stack ->
  Json.step mode stack t = Some (mode', stack') ->
  parsingObject mode' stack'.
Proof.
  intros Hinv Hstep.
  destruct stack as [|f up].
  - destruct mode as [| | | | | |[]]; cbn in Hinv; try contradiction.
    destruct t; discriminate Hstep.
  - assert (Hb : bottomIsObject (f :: up) = true)
      by (destruct mode; cbn in Hinv; try contradiction; exact Hinv).
    assert (Hpush : forall g, bottomIsObject (g :: f :: up) = true)
      by (intros g; destruct g; exact Hb).
    assert (Hclose : forall v m s,
               Json.complete v up = Some (m, s) ->
               (up = [] -> exists ms, v = Json.JObject ms) ->
               parsingObject m s).
    { intros v m s Hc Hv. destruct up as [|g up'].
      - destruct (Hv eq_refl) as [ms ->]. cbn in Hc.
        injection Hc as <- <-. exact I.
      - apply (complete_parsingObject v (g :: up') m s); [|exact Hc].
        destruct f; exact Hb. }
    destruct mode; cbn in Hinv; try contradiction;
      destruct t; cbn [Json.step Json.startValue Json.startKey
                       Json.closeArray Json.closeObject] in Hstep;
      try discriminate Hstep;
      try (injection Hstep as <- <-; first [exact Hb | apply Hpush]);
      try (apply (complete_parsingObject _ _ _ _ Hb Hstep));
      destruct f as [done|done|done key]; try discriminate Hstep;
      try (injection Hstep as <- <-; first [exact Hb | apply Hpush]);
      try (apply (Hclose _ _ _ Hstep); intros ->; first
             [ discriminate Hb | eexists; reflexivity ]).
Qed.

Lemma run_parsingObject (ts : list Json.Token) :
  forall mode stack v,
    parsingObject mode stack ->
    Json.run mode stack ts = Some v ->
    exists members, v = Json.JObject members.
Proof.
  induction ts as [|t rest IH]; intros mode stack v Hinv Hrun.
  - cbn in Hrun. destruct mode as [| | | | | |w]; try discriminate Hrun.
    injection Hrun as ->.
    destruct stack; cbn in Hinv; [|contradiction].
    destruct v; try contradiction. eexists; reflexivity.
  - cbn [Json.run] in Hrun.
    destruct (Json.step mode stack t) as [[mode' stack']|] eqn:Hstep;
      [|discriminate Hrun].
    apply (IH mode' stack' v); [|exact Hrun].
    apply (step_parsingObject _ _ _ _ _ Hinv Hstep).
Qed.

(** X15. The value that the [try] block reads is always an object: the
    span starts with an opening brace, so a span that parses is never
    [null], a boolean, a number, a string or an array. *)
Theorem parsed_span_is_object :
  forall message span errorObj,
    matchJsonSpan message = Some span ->
    Json.parse span = Some errorObj ->
    exists members, errorObj = Json.JObject members.
Proof.
  intros message span errorObj Hs Hparse.
  destruct (matchJsonSpan_starts_with_brace _ _ Hs) as [body ->].
  unfold Json.parse in Hparse.
  change (Json.lex Json.LIdle (String "{" body))
    with (option_map (app [Json.TLBrace]) (Json.lex Json.LIdle body))
    in Hparse.
  destruct (Json.lex Json.LIdle body) as [ts|]; [|discriminate Hparse].
  cbn [option_map app Json.run Json.step Json.startValue] in Hparse.
  apply (run_parsingObject ts Json.MFirstKey [Json.FObject []] errorObj);
    [reflexivity | exact Hparse].
Qed.

(** X15, witness: the example of the specification. *)
Lemma parsed_span_is_object_witness :
  exists members,
    Json.JObject
      [("error",
        Json.JObject [("code", Json.JNumber (JsNumber.ofDecimal false 403 0))])]
    = Json.JObject members.
Proof.
  apply (parsed_span_is_object ("failed: " ++ code403Json) code403Json);
    vm_compute; reflexivity.
Defined.

(** *** The standalone number *)

Lemma bracketedCode_head_not_bracket (o : ascii) (rest : string) :
  Ascii.eqb o "[" = false -> bracketedCode (String o rest) = None.
Proof.
  intros H. destruct rest as [|d1 [|d2 [|d3 [|c tl]]]]; cbn [bracketedCode];
    try reflexivity.
  rewrite H. reflexivity.
Qed.

Lemma digit_not_bracket (d : ascii) :
  isDigit d = true -> Ascii.eqb d "[" = false.
Proof.
  intros H. destruct (Ascii.eqb_spec d "[") as [->|_]; [|reflexivity].
  vm_compute in H. discriminate H.
Qed.

Lemma matchCodeFrom_standalone (p : bool) (s code : string) :
  bracketedCode s = None ->
  standaloneCode p s = Some code ->
  matchCodeFrom p s = Some code.
Proof.
  destruct s as [|c rest]; [discriminate|].
  intros Hb Hs. cbn [matchCodeFrom]. rewrite Hb, Hs. reflexivity.
Qed.

(** X16. A three-digit number that stands alone, with no word character
    right before or after it, and that no digit precedes, is the numeric
    code. *)
Theorem standalone_code_is_found :
  forall pre d1 d2 d3 post,
    Forall (fun c => isDigit c = false) (list_ascii_of_string pre) ->
    endsInWord false pre = false ->
    isDigit d1 = true -> isDigit d2 = true -> isDigit d3 = true ->
    match post with
    | EmptyString => True
    | String c _ => isWordChar c = false
    end ->
    matchCode (pre ++ String d1 (String d2 (String d3 post)))
    = Some (String d1 (String d2 (String d3 EmptyString))).
Proof.
  intros pre d1 d2 d3 post Hpre Hend H1 H2 H3 Hpost.
  enough (H : forall p,
             endsInWord p pre = false ->
             matchCodeFrom p (pre ++ String d1 (String d2 (String d3 post)))
             = Some (String d1 (String d2 (String d3 EmptyString))))
    by (apply H; exact Hend).
  clear Hend.
  induction pre as [|c rest IH]; intros p Hend.
  - cbn [endsInWord] in Hend. subst p. cbn [append].
    apply matchCodeFrom_standalone.
    + apply bracketedCode_head_not_bracket, digit_not_bracket. exact H1.
    + cbn [standaloneCode negb]. rewrite H1, H2, H3.
      destruct post as [|c tl]; [reflexivity|]. rewrite Hpost. reflexivity.
  - cbn [list_ascii_of_string] in Hpre.
    inversion Hpre as [|? ? Hc Hr]; subst.
    cbn [endsInWord] in Hend. cbn [append].
    destruct (bracketedCode
                (String c (rest ++ String d1 (String d2 (String d3 post)))))
      as [b|] eqn:Hb.
    + rewrite (matchCodeFrom_bracketed _ _ _ Hb). f_equal.
      destruct (bracketedCode_shape _ _ Hb)
        as (e1 & e2 & e3 & tl & Hs & -> & He1 & _).
      destruct rest as [|r rest'].
      * cbn [append] in Hs. congruence.
      * cbn [append] in Hs. injection Hs as _ -> _.
        cbn [list_ascii_of_string] in Hr.
        inversion Hr as [|? ? Hd _]; subst. congruence.
    + rewrite (matchCodeFrom_skip _ _ _ Hb
                 (standaloneCode_head_not_digit _ _ _ Hc)).
      apply (IH Hr). exact Hend.
Qed.

(** X16, witness: a status after a colon, before a comma. *)
Lemma standalone_code_is_found_witness :
  matchCode ("HTTP status: " ++ "502, retry later") = Some "502".
Proof.
  apply (standalone_code_is_found "HTTP status: " "5" "0" "2" ", retry later");
    [repeat constructor | reflexivity | reflexivity | reflexivity
     | reflexivity | reflexivity].
Defined.

(** *** The only exception *)


